(** * The item service handler of the serverless API

    Source: [src/aws-python/serverless-api/__main__.py].  The program
    declares a DynamoDB table keyed by the string attribute [id], and
    embeds (as [lambda_code]) the Lambda function serving three routes:
    GET /items, POST /items and GET /items/{id}.

    The development embeds the Lambda function [handler] and the class
    [DecimalEncoder] line by line.  The Python values they manipulate
    are a small universe [pyval]; exceptions are explicit ([result]);
    the table is explicit state ([store]) threaded by a state-and-error
    monad [M].  The collaborators the source imports but does not
    define are modelled next to it:
    - Python's floats are an abstract type, and [float(d)],
      [json.loads], [str(v)] and the place where the table ends the
      first page of a scan are the members of the class [Runtime],
      which the development is parametric in;
    - [json.dumps] is the walk of the encoder over a value, producing
      the JSON document (its layout as text is left out);
    - the boto3 [Table] resource is a finite map of items together
      with boto3's value conversions and the key schema of the table
      declared at lines 24-42 of the source.
    The texts of the exceptions raised by the libraries follow
    CPython 3.11 and boto3; no statement below depends on them.

    Of the declarations of the Pulumi program the development embeds
    the names built from the stack name and the environment of the
    function with the start of its module, and relates them to the
    handler. *)

From Stdlib Require Import ZArith QArith String Ascii List.
From stdpp Require Import gmap strings list.

Local Open Scope Z_scope.
Local Open Scope string_scope.

(** ** Exceptions and results *)

(** The exception classes that occur; every one derives from Python's
    [Exception], so [except Exception] catches them all. *)
Inductive exn_class : Type :=
| KeyError | TypeError | AttributeError | IndexError
| RecursionError | JSONDecodeError | DecimalSignal
| ParamValidationError | ClientError.

(** An exception object: its class and [str(e)]. *)
Record exn : Type := Exn { exn_cls : exn_class; exn_str : string }.

Inductive result (A : Type) : Type :=
| Ok (a : A)
| Raise (e : exn).
Arguments Ok {A} a.
Arguments Raise {A} e.

(** ** Decimal numbers, as [decimal.Decimal] and DynamoDB's N type *)

Record Decimal : Type := mkDecimal { coefficient : Z; exponent : Z }.

(** [Decimal(n)] for a Python int [n]. *)
Definition Decimal_of_int (n : Z) : Decimal := mkDecimal n 0.

(** ** Strings: the three [str] operations the handler uses *)

(** [s.startswith(p)] *)
Fixpoint startswith (s p : string) {struct p} : bool :=
  match p with
  | EmptyString => true
  | String c p' =>
      match s with
      | EmptyString => false
      | String d s' => Ascii.eqb d c && startswith s' p'
      end
  end.

(** [s.split(sep)] for a one-character separator.  Python splits on
    code points; [/] is ASCII and no byte of a multi-byte UTF-8
    sequence equals it, so splitting the byte string is the same. *)
Fixpoint split (sep : ascii) (s : string) : list string :=
  match s with
  | EmptyString => [EmptyString]
  | String c s' =>
      if Ascii.eqb c sep then EmptyString :: split sep s'
      else match split sep s' with
           | h :: t => String c h :: t
           | [] => [String c EmptyString]
           end
  end.

(** [l[-1]]: the last element, [IndexError] on the empty list. *)
Fixpoint index_last {A} (l : list A) : result A :=
  match l with
  | [] => Raise (Exn IndexError "list index out of range")
  | [x] => Ok x
  | _ :: t => index_last t
  end.

Definition slash : ascii := "/"%char.

(** [c] occurs in [s]. *)
Fixpoint occurs (c : ascii) (s : string) : bool :=
  match s with
  | EmptyString => false
  | String d s' => Ascii.eqb d c || occurs c s'
  end.

(** ** DynamoDB attribute values *)

(** What the table stores for an attribute.  The data model of the
    service has strings, numbers, booleans, null and nested lists and
    maps; DynamoDB's set and binary types are left out, no JSON body
    can produce them. *)
#[local] Unset Elimination Schemes.
Inductive attr : Type :=
| AS (s : string)
| AN (d : Decimal)
| ABOOL (b : bool)
| ANULL
| AL (l : list attr)
| AM (kvs : list (string * attr)).
#[local] Set Elimination Schemes.

(** An item is the attribute map of one key. *)
Abbreviation item := (list (string * attr)).

(** ** Sequencing of fallible steps *)

Definition rbind {A B} (r : result A) (k : A -> result B) : result B :=
  match r with Ok a => k a | Raise e => Raise e end.

Notation "'let?' x ':=' r 'in' k" := (rbind r (fun x => k))
  (at level 10, x pattern, r at level 100, k at level 200).

(** [assoc k kvs]: the value of the first pair with key [k]. *)
Fixpoint assoc {A} (k : string) (kvs : list (string * A)) : option A :=
  match kvs with
  | [] => None
  | (k', v) :: rest => if String.eqb k k' then Some v else assoc k rest
  end.

Section Handler.

(** Python's [float], kept abstract. *)
Context {pyfloat : Type}.

(** ** Python values *)

(** The values that flow through the handler.  A [dict] is the list
    of its pairs in insertion order; its keys are strings (all dicts
    here come from JSON, from boto3 or from literals of the source)
    and, as Python has them, distinct. *)
#[local] Unset Elimination Schemes.
Inductive pyval : Type :=
| PNone
| PBool (b : bool)
| PInt (n : Z)
| PFloat (x : pyfloat)
| PDecimal (d : Decimal)
| PStr (s : string)
| PList (l : list pyval)
| PDict (kvs : list (string * pyval)).
#[local] Set Elimination Schemes.

(** What the handler runs on and the source does not define:
    [float(d)] on a [Decimal]; [json.loads] on a text (it raises on a
    text that is not JSON); [str(v)], the text Python prints for a
    value; and [scan_page], the number of items the table service puts
    on the first page of a scan of the items given in scan order (the
    service ends a page at 1 MB of data). *)
Class Runtime : Type := {
  float_of_Decimal : Decimal -> pyfloat;
  json_decode : string -> result pyval;
  py_str : pyval -> string;
  scan_page : list item -> nat
}.

Context {runtime : Runtime}.

(** The name of the type of [v], as Python's error messages print it. *)
Definition type_name (v : pyval) : string :=
  match v with
  | PNone => "NoneType"
  | PBool _ => "bool"
  | PInt _ => "int"
  | PFloat _ => "float"
  | PDecimal _ => "decimal.Decimal"
  | PStr _ => "str"
  | PList _ => "list"
  | PDict _ => "dict"
  end.

(** [v[k]] for a string [k]. *)
Definition subscript (v : pyval) (k : string) : result pyval :=
  match v with
  | PDict kvs =>
      match assoc k kvs with
      | Some x => Ok x
      | None => Raise (Exn KeyError ("'" +:+ k +:+ "'"))
      end
  | PStr _ => Raise (Exn TypeError "string indices must be integers, not 'str'")
  | PList _ => Raise (Exn TypeError "list indices must be integers or slices, not str")
  | _ => Raise (Exn TypeError ("'" +:+ type_name v +:+ "' object is not subscriptable"))
  end.

(** [k in d] and [d[k]] for a dict [d] given by its pairs. *)
Definition dict_contains (d : list (string * pyval)) (k : string) : bool :=
  bool_decide (is_Some (assoc k d)).

Definition dict_getitem (d : list (string * pyval)) (k : string) : result pyval :=
  subscript (PDict d) k.

(** [v == s] for a string literal [s]: never raises, false off [str]. *)
Definition py_eq_str (v : pyval) (s : string) : bool :=
  match v with
  | PStr t => String.eqb t s
  | _ => false
  end.

(** [v.startswith(p)] *)
Definition py_startswith (v : pyval) (p : string) : result bool :=
  match v with
  | PStr s => Ok (startswith s p)
  | _ => Raise (Exn AttributeError
                  ("'" +:+ type_name v +:+ "' object has no attribute 'startswith'"))
  end.

(** [v.split('/')] *)
Definition py_split (v : pyval) : result (list string) :=
  match v with
  | PStr s => Ok (split slash s)
  | _ => Raise (Exn AttributeError
                  ("'" +:+ type_name v +:+ "' object has no attribute 'split'"))
  end.

(** ** boto3's value conversions *)

(** [n] can be cut to 38 significant digits without losing a non-zero
    digit ([fuel] bounds the number of digits cut). *)
Fixpoint cuts_exactly (fuel : nat) (n : Z) : bool :=
  match fuel with
  | O => true
  | S f =>
      if (Z.abs n <? 10 ^ 38)%Z then true
      else if (n mod 10 =? 0)%Z then cuts_exactly f (n / 10) else false
  end.

(** [TypeSerializer._serialize_n] on a Python int: the number goes
    through a decimal context of precision 38 and largest exponent
    126 that traps [Overflow], [Inexact] and [Rounded].  A number that
    rounds (half to even) to 10^127 or more overflows. *)
Definition serialize_int (n : Z) : result attr :=
  if (Z.abs n <? 10 ^ 38)%Z then Ok (AN (Decimal_of_int n))
  else if (10 ^ 127 - 5 * 10 ^ 88 <=? Z.abs n)%Z
       then Raise (Exn DecimalSignal
                     "[<class 'decimal.Overflow'>, <class 'decimal.Inexact'>, <class 'decimal.Rounded'>]")
  else if cuts_exactly (Z.to_nat (Z.log2 (Z.abs n))) n
       then Raise (Exn DecimalSignal "[<class 'decimal.Rounded'>]")
       else Raise (Exn DecimalSignal
                     "[<class 'decimal.Inexact'>, <class 'decimal.Rounded'>]").

(** [TypeSerializer.serialize]: Python value to attribute value.  The
    tests run in boto3's order (null, boolean, number, string, map,
    list); a [float] is refused. *)
Fixpoint serialize (v : pyval) : result attr :=
  match v with
  | PNone => Ok ANULL
  | PBool b => Ok (ABOOL b)
  | PInt n => serialize_int n
  | PFloat _ =>
      Raise (Exn TypeError "Float types are not supported. Use Decimal types instead.")
  | PDecimal d => Ok (AN d)
  | PStr s => Ok (AS s)
  | PList l =>
      let? l' := (fix go (l : list pyval) : result (list attr) :=
                    match l with
                    | [] => Ok []
                    | x :: r => let? a := serialize x in
                                let? r' := go r in Ok (a :: r')
                    end) l in
      Ok (AL l')
  | PDict kvs =>
      let? kvs' := (fix go (kvs : list (string * pyval)) : result item :=
                      match kvs with
                      | [] => Ok []
                      | (k, x) :: r => let? a := serialize x in
                                       let? r' := go r in Ok ((k, a) :: r')
                      end) kvs in
      Ok (AM kvs')
  end.

(** The attribute map of a dict: every value serialized, in order. *)
Fixpoint serialize_map (kvs : list (string * pyval)) : result item :=
  match kvs with
  | [] => Ok []
  | (k, x) :: r => let? a := serialize x in
                   let? r' := serialize_map r in Ok ((k, a) :: r')
  end.

(** [TypeDeserializer.deserialize]: a number comes back as [Decimal]. *)
Fixpoint deserialize (a : attr) : pyval :=
  match a with
  | AS s => PStr s
  | AN d => PDecimal d
  | ABOOL b => PBool b
  | ANULL => PNone
  | AL l => PList (map deserialize l)
  | AM kvs => PDict (map (fun kv => (fst kv, deserialize (snd kv))) kvs)
  end.

Definition deserialize_item (it : item) : pyval := deserialize (AM it).

(** ** The table resource *)

(** The calls made on the [Table] resource, with their argument. *)
Inductive call : Type :=
| CScan
| CPutItem (Item : pyval)
| CGetItem (Key : pyval).

(** The shared collection: the items by key, and the log of the calls
    made on the resource (newest last). *)
Record store : Type := mkStore {
  items : gmap string item;
  calls : list call
}.

(** ** The state-and-error monad of an invocation *)

Definition M (A : Type) : Type := store -> result A * store.

Definition ret {A} (a : A) : M A := fun s => (Ok a, s).
Definition raise {A} (e : exn) : M A := fun s => (Raise e, s).
Definition lift {A} (r : result A) : M A := fun s => (r, s).
Definition bind {A B} (m : M A) (k : A -> M B) : M B :=
  fun s => match m s with
           | (Ok a, s') => k a s'
           | (Raise e, s') => (Raise e, s')
           end.

Notation "'let*' x ':=' m 'in' k" := (bind m (fun x => k))
  (at level 10, x pattern, m at level 100, k at level 200).

(** [try: body / except Exception as e: h e].  What [body] did to the
    store before it raised stays done, as in Python. *)
Definition try_except {A} (body : M A) (h : exn -> M A) : M A :=
  fun s => match body s with
           | (Ok a, s') => (Ok a, s')
           | (Raise e, s') => h e s'
           end.

Definition log_call (c : call) : M unit :=
  fun s => (Ok tt, mkStore (items s) (calls s ++ [c])).

(** The request reaches the service unless the service is in an
    [outage]: throttling, unavailability, a denied permission, or any
    refusal of the service that is not spelled out below. *)
Definition reach_service (outage : option exn) : M unit :=
  match outage with
  | Some e => raise e
  | None => ret tt
  end.

Definition read_items : M (gmap string item) := fun s => (Ok (items s), s).

Definition write_item (k : string) (it : item) : M unit :=
  fun s => (Ok tt, mkStore (<[k := it]> (items s)) (calls s)).

(** [str(e)] of the [ClientError] boto3 raises when the service answers
    an operation with a [ValidationException]. *)
Definition validation_error (operation message : string) : exn :=
  Exn ClientError
      ("An error occurred (ValidationException) when calling the "
         +:+ operation +:+ " operation: " +:+ message).

Definition empty_key_message : string :=
  "One or more parameter values are not valid. The AttributeValue for a key attribute cannot contain an empty string value. Key: id".

Definition descriptor (a : attr) : string :=
  match a with
  | AS _ => "S" | AN _ => "N" | ABOOL _ => "BOOL"
  | ANULL => "NULL" | AL _ => "L" | AM _ => "M"
  end.

(** The key of an item to be put.  The table is declared with
    [hash_key="id"] and the attribute [id] of type ["S"]: the service
    refuses an item without [id], with an [id] that is not a string,
    and with the empty string as [id]. *)
Definition item_key (it : item) : result string :=
  match assoc "id" it with
  | None =>
      Raise (validation_error "PutItem"
               "One or more parameter values were invalid: Missing the key id in the item")
  | Some (AS k) =>
      if String.eqb k "" then Raise (validation_error "PutItem" empty_key_message)
      else Ok k
  | Some a =>
      Raise (validation_error "PutItem"
               ("One or more parameter values were invalid: Type mismatch for key id expected: S actual: "
                  +:+ descriptor a))
  end.

(** The key named by the [Key] argument of a read: exactly the key
    schema, one non-empty string under [id]. *)
Definition lookup_key (key : item) : result string :=
  match key with
  | [(name, AS k)] =>
      if String.eqb name "id" then
        if String.eqb k "" then Raise (validation_error "GetItem" empty_key_message)
        else Ok k
      else Raise (validation_error "GetItem"
                    "The provided key element does not match the schema")
  | _ => Raise (validation_error "GetItem"
                  "The provided key element does not match the schema")
  end.

(** The refusal of an argument [v] that is no dict: botocore's report,
    on two lines, with the value and its type. *)
Definition not_a_dict (parameter : string) (v : pyval) : exn :=
  Exn ParamValidationError
      ("Parameter validation failed:"
         +:+ String "010"%char
               ("Invalid type for parameter " +:+ parameter
                  +:+ ", value: " +:+ py_str v
                  +:+ ", type: <class '" +:+ type_name v
                  +:+ "'>, valid types: <class 'dict'>")).

(** The first page of a scan of the collection: the items from the
    front of the store's own order that the service puts on it. *)
Definition first_page (m : gmap string item) : list (string * item) :=
  take (scan_page (map snd (map_to_list m))) (map_to_list m).

(** The key at which a scan stopped, as the response names it under
    ['LastEvaluatedKey'] when the page does not reach the end of the
    collection. *)
Definition last_evaluated_key (m : gmap string item) : list (string * pyval) :=
  if (length (first_page m) <? length (map_to_list m))%nat then
    match last (first_page m) with
    | Some (k, _) => [("LastEvaluatedKey", PDict [("id", PStr k)])]
    | None => []
    end
  else [].

(** [table.scan()], called once and without [ExclusiveStartKey]: the
    response holds the first page of the collection under ['Items'],
    and the key to go on from when there is more.  The handler reads
    ['Items'] only. *)
Definition scan (outage : option exn) : M (list (string * pyval)) :=
  let* _ := log_call CScan in
  let* _ := reach_service outage in
  let* m := read_items in
  let found := map (fun kv => deserialize_item (snd kv)) (first_page m) in
  ret ([("Items", PList found);
        ("Count", PInt (Z.of_nat (length found)));
        ("ScannedCount", PInt (Z.of_nat (length found)))]
         ++ last_evaluated_key m)%list.

(** [table.get_item(Key=Key)]: the response holds the item under
    ['Item'] when the key is present, and has no ['Item'] otherwise. *)
Definition get_item (outage : option exn) (Key : pyval) : M (list (string * pyval)) :=
  let* _ := log_call (CGetItem Key) in
  match Key with
  | PDict kvs =>
      let* key := lift (serialize_map kvs) in
      let* _ := reach_service outage in
      let* k := lift (lookup_key key) in
      let* m := read_items in
      match m !! k with
      | Some it => ret [("Item", deserialize_item it)]
      | None => ret []
      end
  | _ => raise (not_a_dict "Key" Key)
  end.

(** [table.put_item(Item=Item)]: the item replaces whatever the
    collection held under its key. *)
Definition put_item (outage : option exn) (Item : pyval) : M (list (string * pyval)) :=
  let* _ := log_call (CPutItem Item) in
  match Item with
  | PDict kvs =>
      let* it := lift (serialize_map kvs) in
      let* _ := reach_service outage in
      let* k := lift (item_key it) in
      let* _ := write_item k it in
      ret []
  | _ => raise (not_a_dict "Item" Item)
  end.

(** ** JSON *)

(** A JSON document, as [json.dumps] writes it: an int prints as an
    integer literal, a float as a floating-point literal. *)
#[local] Unset Elimination Schemes.
Inductive json : Type :=
| JNull
| JBool (b : bool)
| JInt (n : Z)
| JFloat (x : pyfloat)
| JStr (s : string)
| JArr (l : list json)
| JObj (kvs : list (string * json)).
#[local] Set Elimination Schemes.

(** The walk of [json.JSONEncoder] over a value: the types JSON knows
    are written directly, any other object goes to [fallback]. *)
Fixpoint walk (fallback : pyval -> result json) (v : pyval) : result json :=
  match v with
  | PNone => Ok JNull
  | PBool b => Ok (JBool b)
  | PInt n => Ok (JInt n)
  | PFloat x => Ok (JFloat x)
  | PStr s => Ok (JStr s)
  | PList l =>
      let? l' := (fix go (l : list pyval) : result (list json) :=
                    match l with
                    | [] => Ok []
                    | x :: r => let? j := walk fallback x in
                                let? r' := go r in Ok (j :: r')
                    end) l in
      Ok (JArr l')
  | PDict kvs =>
      let? kvs' := (fix go (kvs : list (string * pyval)) : result (list (string * json)) :=
                      match kvs with
                      | [] => Ok []
                      | (k, x) :: r => let? j := walk fallback x in
                                       let? r' := go r in Ok ((k, j) :: r')
                      end) kvs in
      Ok (JObj kvs')
  | PDecimal _ => fallback v
  end.

(** The encoder with its [default] hook: an object JSON does not know
    is replaced by [default obj], which is encoded in turn; [chain]
    bounds how often that may repeat on one object. *)
Fixpoint encode (default : pyval -> result pyval) (chain : nat) (v : pyval) : result json :=
  walk (fun obj =>
          let? obj' := default obj in
          match chain with
          | O => Raise (Exn RecursionError "maximum recursion depth exceeded")
          | S c => encode default c obj'
          end) v.

Definition recursion_limit : nat := 1000.

(** [json.dumps(obj, cls=...)], the class given by its [default]. *)
Definition json_dumps (obj : pyval) (default : pyval -> result pyval) : result json :=
  encode default recursion_limit obj.

(** [json.JSONEncoder.default]: always a [TypeError]. *)
Definition JSONEncoder_default (obj : pyval) : result pyval :=
  Raise (Exn TypeError
           ("Object of type "
              +:+ (match obj with PDecimal _ => "Decimal" | _ => type_name obj end)
              +:+ " is not JSON serializable")).

(** [DecimalEncoder.default] (source lines 98-102). *)
Definition DecimalEncoder_default (obj : pyval) : result pyval :=
  match obj with
  | PDecimal d => Ok (PFloat (float_of_Decimal d))
  | _ => JSONEncoder_default obj
  end.

(** [json.loads(s)] *)
Definition json_loads (s : pyval) : result pyval :=
  match s with
  | PStr text => json_decode text
  | _ => Raise (Exn TypeError
                  ("the JSON object must be str, bytes or bytearray, not "
                     +:+ type_name s))
  end.

(** ** The handler *)

(** The dict the handler returns; [headers] is absent from the 404 and
    500 responses.  [body] is the document [json.dumps] wrote. *)
Record response : Type := mkResponse {
  statusCode : Z;
  headers : option (list (string * string));
  body : json
}.

Definition json_headers : option (list (string * string)) :=
  Some [("Content-Type", "application/json")].

(** The body of the [try] block (source lines 109-143). *)
Definition routes (outage : option exn) (event http_method path : pyval) : M response :=
  if py_eq_str http_method "GET" && py_eq_str path "/items" then
    let* response := scan outage in
    let* found := lift (dict_getitem response "Items") in
    let* text := lift (json_dumps found DecimalEncoder_default) in
    ret (mkResponse 200 json_headers text)
  else if py_eq_str http_method "POST" && py_eq_str path "/items" then
    let* raw := lift (subscript event "body") in
    let* body := lift (json_loads raw) in
    let* _ := put_item outage body in
    let* text := lift (json_dumps (PDict [("message", PStr "Item created")])
                                  JSONEncoder_default) in
    ret (mkResponse 201 json_headers text)
  else
    let* by_id := (if py_eq_str http_method "GET"
                   then lift (py_startswith path "/items/")
                   else ret false) in
    if (by_id : bool) then
      let* segments := lift (py_split path) in
      let* item_id := lift (index_last segments) in
      let* response := get_item outage (PDict [("id", PStr item_id)]) in
      if dict_contains response "Item" then
        let* found := lift (dict_getitem response "Item") in
        let* text := lift (json_dumps found DecimalEncoder_default) in
        ret (mkResponse 200 json_headers text)
      else
        let* text := lift (json_dumps (PDict [("error", PStr "Item not found")])
                                      JSONEncoder_default) in
        ret (mkResponse 404 None text)
    else
      let* text := lift (json_dumps (PDict [("error", PStr "Not found")])
                                    JSONEncoder_default) in
      ret (mkResponse 404 None text).

(** The [except Exception as e] clause (source lines 145-149). *)
Definition on_exception (e : exn) : M response :=
  let* text := lift (json_dumps (PDict [("error", PStr (exn_str e))])
                                JSONEncoder_default) in
  ret (mkResponse 500 None text).

(** [event['requestContext']['http'][field]] *)
Definition http_field (event : pyval) (field : string) : result pyval :=
  let? requestContext := subscript event "requestContext" in
  let? http := subscript requestContext "http" in
  subscript http field.

(** [handler(event, context)] (source lines 104-149).  The two reads
    of the event stand before the [try]. *)
Definition handler (outage : option exn) (event context : pyval) : M response :=
  let* http_method := lift (http_field event "method") in
  let* path := lift (http_field event "path") in
  try_except (routes outage event http_method path) on_exception.

(** ** What the spec expects to read back *)

(** The numeric-serialization rule of the spec, on a stored attribute:
    a number of the store is written as the float it converts to;
    every other value is written as it is. *)
Fixpoint json_of_attr (a : attr) : json :=
  match a with
  | AS s => JStr s
  | AN d => JFloat (float_of_Decimal d)
  | ABOOL b => JBool b
  | ANULL => JNull
  | AL l => JArr (map json_of_attr l)
  | AM kvs => JObj (map (fun kv => (fst kv, json_of_attr (snd kv))) kvs)
  end.

Definition json_of_item (it : item) : json := json_of_attr (AM it).

(** Every number of the document is a float: it holds no integer
    literal (and a decimal has no literal of its own in JSON). *)
Fixpoint floats_only (j : json) : bool :=
  match j with
  | JInt _ => false
  | JArr l => forallb floats_only l
  | JObj kvs => forallb (fun kv => floats_only (snd kv)) kvs
  | _ => true
  end.

(** A written value, each of its numbers taken through the store's
    decimal and back to a float: what "JSON-equal, allowing the numeric
    round-trip" compares a read with. *)
Fixpoint round_trip (v : pyval) : json :=
  match v with
  | PNone => JNull
  | PBool b => JBool b
  | PInt n => JFloat (float_of_Decimal (Decimal_of_int n))
  | PFloat x => JFloat x
  | PDecimal d => JFloat (float_of_Decimal d)
  | PStr s => JStr s
  | PList l => JArr (map round_trip l)
  | PDict kvs => JObj (map (fun kv => (fst kv, round_trip (snd kv))) kvs)
  end.

(** The written value is one the store client takes: no float, and no
    integer beyond 38 digits, at any depth. *)
Fixpoint storable (v : pyval) : bool :=
  match v with
  | PInt n => (Z.abs n <? 10 ^ 38)%Z
  | PFloat _ => false
  | PList l => forallb storable l
  | PDict kvs => forallb (fun kv => storable (snd kv)) kvs
  | _ => true
  end.

(** The id a request body carries, when it is the text of an object
    with a string [id]. *)
Definition posted_id (event : pyval) : option string :=
  match subscript event "body" with
  | Ok (PStr text) =>
      match json_decode text with
      | Ok (PDict kvs) =>
          match assoc "id" kvs with
          | Some (PStr k) => Some k
          | _ => None
          end
      | _ => None
      end
  | _ => None
  end.

(** The two 404 bodies and the 500 body. *)
Definition error_body (message : string) : json := JObj [("error", JStr message)].

Definition not_found : response := mkResponse 404 None (error_body "Not found").
Definition item_not_found : response := mkResponse 404 None (error_body "Item not found").
Definition internal_error (e : exn) : response :=
  mkResponse 500 None (error_body (exn_str e)).
Definition created : response :=
  mkResponse 201 json_headers (JObj [("message", JStr "Item created")]).
Definition ok (document : json) : response := mkResponse 200 json_headers document.

(** The store after a call was logged on it, and after a put. *)
Definition listed (s : store) : store := mkStore (items s) (calls s ++ [CScan]).

Definition looked_up (s : store) (k : string) : store :=
  mkStore (items s) (calls s ++ [CGetItem (PDict [("id", PStr k)])]).

Definition put_logged (s : store) (kvs : list (string * pyval)) : store :=
  mkStore (items s) (calls s ++ [CPutItem (PDict kvs)]).

Definition put_done (s : store) (kvs : list (string * pyval)) (k : string) (it : item) : store :=
  mkStore (<[k := it]> (items s)) (calls s ++ [CPutItem (PDict kvs)]).

(** A chain of successful writes: each POST to /items answered 201,
    the store handed from one invocation to the next.  The list keeps,
    per write, the id and the value of the body. *)
Inductive written : store -> list (string * pyval) -> store -> Prop :=
| written_nil s : written s [] s
| written_cons s s1 s2 outage event context text k kvs r rest :
    http_field event "method" = Ok (PStr "POST") ->
    http_field event "path" = Ok (PStr "/items") ->
    subscript event "body" = Ok (PStr text) ->
    json_decode text = Ok (PDict kvs) ->
    assoc "id" kvs = Some (PStr k) ->
    handler outage event context s = (Ok r, s1) ->
    statusCode r = 201 ->
    written s1 rest s2 ->
    written s ((k, PDict kvs) :: rest) s2.

(** ** Induction over nested values *)

Definition attr_ind (P : attr -> Prop)
  (HS : forall s, P (AS s)) (HN : forall d, P (AN d))
  (HB : forall b, P (ABOOL b)) (HNull : P ANULL)
  (HL : forall l, Forall P l -> P (AL l))
  (HM : forall kvs, Forall (fun kv => P (snd kv)) kvs -> P (AM kvs)) :
  forall a, P a :=
  fix rec (a : attr) : P a :=
    match a with
    | AS s => HS s
    | AN d => HN d
    | ABOOL b => HB b
    | ANULL => HNull
    | AL l =>
        HL l ((fix all (l : list attr) : Forall P l :=
                 match l with
                 | [] => @List.Forall_nil _ P
                 | x :: r => @List.Forall_cons _ P x r (rec x) (all r)
                 end) l)
    | AM kvs =>
        HM kvs ((fix all (kvs : list (string * attr)) : Forall (fun kv => P (snd kv)) kvs :=
                   match kvs with
                   | [] => @List.Forall_nil _ (fun kv => P (snd kv))
                   | kv :: r => @List.Forall_cons _ (fun kv => P (snd kv)) kv r (rec (snd kv)) (all r)
                   end) kvs)
    end.

Definition pyval_ind (P : pyval -> Prop)
  (HNone : P PNone) (HB : forall b, P (PBool b)) (HI : forall n, P (PInt n))
  (HF : forall x, P (PFloat x)) (HD : forall d, P (PDecimal d))
  (HS : forall s, P (PStr s))
  (HL : forall l, Forall P l -> P (PList l))
  (HM : forall kvs, Forall (fun kv => P (snd kv)) kvs -> P (PDict kvs)) :
  forall v, P v :=
  fix rec (v : pyval) : P v :=
    match v with
    | PNone => HNone
    | PBool b => HB b
    | PInt n => HI n
    | PFloat x => HF x
    | PDecimal d => HD d
    | PStr s => HS s
    | PList l =>
        HL l ((fix all (l : list pyval) : Forall P l :=
                 match l with
                 | [] => @List.Forall_nil _ P
                 | x :: r => @List.Forall_cons _ P x r (rec x) (all r)
                 end) l)
    | PDict kvs =>
        HM kvs ((fix all (kvs : list (string * pyval)) : Forall (fun kv => P (snd kv)) kvs :=
                   match kvs with
                   | [] => @List.Forall_nil _ (fun kv => P (snd kv))
                   | kv :: r => @List.Forall_cons _ (fun kv => P (snd kv)) kv r (rec (snd kv)) (all r)
                   end) kvs)
    end.

(** ** Runs of invocations *)

(** One invocation of the function by the platform: the state of the
    service for its store call, and the two arguments of [handler]. *)
Record invocation : Type := mkInvocation {
  inv_outage : option exn;
  inv_event : pyval;
  inv_context : pyval
}.

(** The invocations of a run, one after the other on the shared
    collection: the outcomes, and the collection at the end. *)
Fixpoint run (invs : list invocation) (s : store) : list (result response) * store :=
  match invs with
  | [] => ([], s)
  | i :: rest =>
      let (o, s1) := handler (inv_outage i) (inv_event i) (inv_context i) s in
      let (os, s2) := run rest s1 in
      (o :: os, s2)
  end.

(** How the handler ends, whatever the event: the six outcomes with
    the store they leave. *)
Inductive ending (outage : option exn) (event : pyval) (s : store)
  : result response -> store -> Prop :=
| ends_raising e :
    ending outage event s (Raise e) s
| ends_unmatched :
    ending outage event s (Ok not_found) s
| ends_failing_before_call e :
    ending outage event s (Ok (internal_error e)) s
| ends_failing_in_call e c :
    ending outage event s (Ok (internal_error e))
      (mkStore (items s) (calls s ++ [c]))
| ends_listing :
    outage = None ->
    ending outage event s
      (Ok (ok (JArr (map json_of_item (map snd (first_page (items s)))))))
      (listed s)
| ends_finding k it :
    outage = None -> k <> "" -> items s !! k = Some it ->
    ending outage event s (Ok (ok (json_of_item it))) (looked_up s k)
| ends_missing k :
    outage = None -> k <> "" -> items s !! k = None ->
    ending outage event s (Ok item_not_found) (looked_up s k)
| ends_creating kvs it k :
    outage = None -> posted_id event = Some k ->
    serialize_map kvs = Ok it -> item_key it = Ok k ->
    ending outage event s (Ok created) (put_done s kvs k it).

(** Every item of the collection carries its key as the string [id],
    and no key is empty. *)
Definition well_keyed (s : store) : Prop :=
  forall k it, items s !! k = Some it -> assoc "id" it = Some (AS k) /\ k <> "".

(** Two stores with the same items (their call logs may differ), and
    a computation that cannot tell them apart: same outcome, and the
    same items afterwards. *)
Definition same_items (s1 s2 : store) : Prop := items s1 = items s2.

Definition respects {A} (m : M A) : Prop :=
  forall s1 s2, same_items s1 s2 ->
                fst (m s1) = fst (m s2) /\ same_items (snd (m s1)) (snd (m s2)).

(** The [id] member of a JSON object, when it is a string. *)
Definition json_id (j : json) : option string :=
  match j with
  | JObj members =>
      match assoc "id" members with
      | Some (JStr k) => Some k
      | _ => None
      end
  | _ => None
  end.

(** What [DecimalEncoder] writes for a value: a [Decimal] as the float
    it converts to, everything else as the plain encoder does. *)
Fixpoint dumped (v : pyval) : json :=
  match v with
  | PNone => JNull
  | PBool b => JBool b
  | PInt n => JInt n
  | PFloat x => JFloat x
  | PDecimal d => JFloat (float_of_Decimal d)
  | PStr s => JStr s
  | PList l => JArr (map dumped l)
  | PDict kvs => JObj (map (fun kv => (fst kv, dumped (snd kv))) kvs)
  end.

(** The value holds a [Decimal], at some depth. *)
Fixpoint holds_decimal (v : pyval) : bool :=
  match v with
  | PDecimal _ => true
  | PList l => existsb holds_decimal l
  | PDict kvs => existsb (fun kv => holds_decimal (snd kv)) kvs
  | _ => false
  end.

End Handler.

Arguments pyval : clear implicits.
Arguments json : clear implicits.
Arguments call : clear implicits.
Arguments store : clear implicits.
Arguments response : clear implicits.
Arguments Runtime : clear implicits.
Arguments invocation : clear implicits.

(** ** The declarations of the Pulumi program *)

(** [app_name] (source line 14) and the two names built from it and
    from the stack name [environment] (source lines 26 and 155). *)
Definition app_name : string := "serverless-api".

Definition table_name (environment : string) : string :=
  app_name +:+ "-" +:+ environment +:+ "-items".

Definition function_name (environment : string) : string :=
  app_name +:+ "-" +:+ environment +:+ "-handler".

(** The environment variables of the function (source lines 162-166):
    [TABLE_NAME] is the name of the table of the same stack. *)
Definition lambda_environment (environment : string) : list (string * string) :=
  [("TABLE_NAME", table_name environment)].

(** The start of the function's module (source lines 95-96): the
    [Table] resource is bound to the table named by
    [os.environ['TABLE_NAME']], a [KeyError] when the variable is
    missing.  The result is the name the resource is bound to. *)
Definition lambda_init (environ : list (string * string)) : result string :=
  match assoc "TABLE_NAME" environ with
  | Some name => Ok name
  | None => Raise (Exn KeyError "'TABLE_NAME'")
  end.

(** ** A concrete setting for running the handler *)

Module Sample.

(** Floats stand as exact rationals here: [float(d)] is the value of
    the decimal. *)
Definition to_float (d : Decimal) : Q :=
  (inject_Z (coefficient d) * (10 # 1) ^ exponent d)%Q.

Definition quoted (s : string) : string :=
  String "034"%char (s +:+ String "034"%char EmptyString).

(** [{"k1":"v1","k2":"v2"}] *)
Definition object2 (k1 v1 k2 v2 : string) : string :=
  "{" +:+ quoted k1 +:+ ":" +:+ quoted v1 +:+ ","
      +:+ quoted k2 +:+ ":" +:+ quoted v2 +:+ "}".

(** The bodies of the examples, as JSON text and as [json.loads]
    reads them. *)
Definition widget_text : string := object2 "id" "42" "name" "widget".
Definition widget : list (string * pyval Q) :=
  [("id", PStr "42"); ("name", PStr "widget")].

(** [{"id":"42","name":"gadget","price":7}] *)
Definition gadget_text : string :=
  "{" +:+ quoted "id" +:+ ":" +:+ quoted "42" +:+ ","
      +:+ quoted "name" +:+ ":" +:+ quoted "gadget" +:+ ","
      +:+ quoted "price" +:+ ":7}".
Definition gadget : list (string * pyval Q) :=
  [("id", PStr "42"); ("name", PStr "gadget"); ("price", PInt 7)].

Definition bolt_text : string := object2 "id" "7" "name" "bolt".
Definition bolt : list (string * pyval Q) :=
  [("id", PStr "7"); ("name", PStr "bolt")].

(** [{"name":"widget"}]: an object without [id] *)
Definition nameless_text : string :=
  "{" +:+ quoted "name" +:+ ":" +:+ quoted "widget" +:+ "}".
Definition nameless : list (string * pyval Q) := [("name", PStr "widget")].

Definition slashed_text : string := object2 "id" "a/b" "name" "widget".
Definition slashed : list (string * pyval Q) :=
  [("id", PStr "a/b"); ("name", PStr "widget")].

Definition reslashed_text : string := object2 "id" "a/b" "name" "gadget".
Definition reslashed : list (string * pyval Q) :=
  [("id", PStr "a/b"); ("name", PStr "gadget")].

(** [{"id":"1","price":1.5}] *)
Definition priced_text : string :=
  "{" +:+ quoted "id" +:+ ":" +:+ quoted "1" +:+ "," +:+ quoted "price" +:+ ":1.5}".
Definition priced : list (string * pyval Q) :=
  [("id", PStr "1"); ("price", PFloat (3 # 2)%Q)].

(** [json.loads] on the texts above and on ["7"]; any other text is
    taken as not JSON (the examples use ["{"] for that). *)
Definition loads (text : string) : result (pyval Q) :=
  if String.eqb text "7" then Ok (PInt 7)
  else if String.eqb text widget_text then Ok (PDict widget)
  else if String.eqb text gadget_text then Ok (PDict gadget)
  else if String.eqb text bolt_text then Ok (PDict bolt)
  else if String.eqb text nameless_text then Ok (PDict nameless)
  else if String.eqb text slashed_text then Ok (PDict slashed)
  else if String.eqb text reslashed_text then Ok (PDict reslashed)
  else if String.eqb text priced_text then Ok (PDict priced)
  else Raise (Exn JSONDecodeError
                "Expecting property name enclosed in double quotes: line 1 column 2 (char 1)").

(** The size the service counts for an attribute: the bytes of a
    string, a byte and one more per two digits for a number, one byte
    for a boolean or null, three bytes and one per member for a list
    or a map; and for an item, with the bytes of its attribute
    names. *)
Fixpoint digits (fuel : nat) (n : Z) : Z :=
  match fuel with
  | O => 0
  | S fuel' => if (n <? 10)%Z then 1 else 1 + digits fuel' (n / 10)
  end.

Fixpoint attr_size (a : attr) : Z :=
  match a with
  | AS s => Z.of_nat (String.length s)
  | AN d => 1 + (digits 40 (Z.abs (coefficient d)) + 1) / 2
  | ABOOL _ => 1
  | ANULL => 1
  | AL l => 3 + fold_right (fun x n => 1 + attr_size x + n) 0 l
  | AM kvs =>
      3 + fold_right
            (fun kv n => 1 + Z.of_nat (String.length (fst kv)) + attr_size (snd kv) + n)
            0 kvs
  end.

Definition item_size (it : item) : Z :=
  fold_right (fun kv n => Z.of_nat (String.length (fst kv)) + attr_size (snd kv) + n)
             0 it.

(** The page of a scan holds 1 MB of data at most: the items are put
    on it from the front for as long as the next one fits. *)
Definition page_limit : Z := 1048576.

Fixpoint page_by_size (room : Z) (l : list item) : nat :=
  match l with
  | [] => O
  | it :: rest =>
      if (item_size it <=? room)%Z then S (page_by_size (room - item_size it) rest)
      else O
  end.

(** [str(v)] on [None], the booleans, the ints and the strings; the
    examples print no other value. *)
Fixpoint show_digits (fuel : nat) (n : Z) (shown : string) : string :=
  match fuel with
  | O => shown
  | S fuel' =>
      let shown' := String (ascii_of_nat (48 + Z.to_nat (n mod 10))) shown in
      if (n <? 10)%Z then shown' else show_digits fuel' (n / 10) shown'
  end.

Definition show_int (n : Z) : string :=
  if (n <? 0)%Z
  then "-" +:+ show_digits (S (Z.to_nat (Z.log2 (- n)))) (- n) EmptyString
  else show_digits (S (Z.to_nat (Z.log2 n))) n EmptyString.

Definition str (v : pyval Q) : string :=
  match v with
  | PNone => "None"
  | PBool true => "True"
  | PBool false => "False"
  | PInt n => show_int n
  | PStr s => s
  | _ => EmptyString
  end.

#[export] Instance runtime : Runtime Q :=
  {| float_of_Decimal := to_float;
     json_decode := loads;
     py_str := str;
     scan_page := page_by_size page_limit |}.

(** The event of a request, as an HTTP API builds it (payload format
    2.0): method and path stand under [requestContext.http]. *)
Definition request (method path : string) (body : pyval Q) : pyval Q :=
  PDict [("requestContext",
          PDict [("http", PDict [("method", PStr method); ("path", PStr path)])]);
         ("body", body)].

(** The event of the same request as a REST API builds it for a
    Lambda proxy integration (payload format 1.0), which is what the
    [apigateway.RestAPI] declared at source line 181 sends: method and
    path stand at the top and in [requestContext], which has no
    [http] member. *)
Definition rest_request (stage method path : string) (body : pyval Q) : pyval Q :=
  PDict [("resource", PStr path);
         ("path", PStr path);
         ("httpMethod", PStr method);
         ("requestContext",
          PDict [("resourcePath", PStr path);
                 ("httpMethod", PStr method);
                 ("path", PStr ("/" +:+ stage +:+ path));
                 ("stage", PStr stage)]);
         ("body", body);
         ("isBase64Encoded", PBool false)].

Definition no_context : pyval Q := PNone.

Definition empty_store : store Q := mkStore ∅ [].

(** One invocation, and the store it leaves. *)
Definition invoke (outage : option exn) (event : pyval Q) (s : store Q)
  : result (response Q) * store Q :=
  handler outage event no_context s.

Definition after (outage : option exn) (event : pyval Q) (s : store Q) : store Q :=
  snd (invoke outage event s).

(** The collection after the widget was posted, and after the gadget
    was posted over it under the same id. *)
Definition widget_store : store Q :=
  after None (request "POST" "/items" (PStr widget_text)) empty_store.

Definition gadget_store : store Q :=
  after None (request "POST" "/items" (PStr gadget_text)) widget_store.

(** The collection after the widget and the bolt were posted. *)
Definition two_items_store : store Q :=
  after None (request "POST" "/items" (PStr bolt_text)) widget_store.

(** A collection holding an item under ["a/b"] and one under ["b"]. *)
Definition slashed_store : store Q :=
  mkStore (<["a/b" := [("id", AS "a/b"); ("name", AS "widget")]]>
             (<["b" := [("id", AS "b"); ("name", AS "bolt")]]> ∅)) [].

(** [c * n], the text of [n] times the character [c]. *)
Definition times (c : ascii) (n : N) : string :=
  N.iter n (String c) EmptyString.

(** A collection of four items, each carrying the text [blob]. *)
Definition bulky_item (k blob : string) : item := [("id", AS k); ("blob", AS blob)].

Definition bulky_store (blob : string) : store Q :=
  mkStore (<["1" := bulky_item "1" blob]>
             (<["2" := bulky_item "2" blob]>
                (<["3" := bulky_item "3" blob]>
                   (<["4" := bulky_item "4" blob]> ∅)))) [].

(** A run on the collection: the bolt is posted, then the items are
    listed. *)
Definition bolt_then_list : list (invocation Q) :=
  [mkInvocation None (request "POST" "/items" (PStr bolt_text)) no_context;
   mkInvocation None (request "GET" "/items" PNone) no_context].

End Sample.

(** * Properties of the handler *)

Section Facts.

Context {pyfloat : Type} {runtime : Runtime pyfloat}.

Local Abbreviation pyval := (pyval pyfloat).
Local Abbreviation store := (store pyfloat).
Local Abbreviation json := (json pyfloat).

(** ** Facts about [split] and the last segment *)

Lemma split_cons (sep : ascii) (s : string) :
  exists h t, split sep s = h :: t.
Proof.
  induction s as [|c s' IH]; simpl.
  - by exists EmptyString, [].
  - destruct (Ascii.eqb c sep); [by eauto|].
    destruct IH as (h & t & ->). by eauto.
Qed.

Lemma split_free (sep : ascii) (s : string) :
  occurs sep s = false -> split sep s = [s].
Proof.
  induction s as [|c s' IH]; simpl; [done|].
  destruct (Ascii.eqb c sep); simpl; [done|].
  intros H. by rewrite (IH H).
Qed.

(** Past a separator, the pieces are those of what follows it. *)
Lemma split_app (sep : ascii) (pre k : string) :
  exists h y t, split sep (pre +:+ String sep k) = h :: y :: t
                /\ index_last (y :: t) = index_last (split sep k).
Proof.
  induction pre as [|c pre' (h & y & t & Hsplit & Hlast)]; simpl.
  - rewrite Ascii.eqb_refl.
    destruct (split_cons sep k) as (y & t & Hk).
    exists EmptyString, y, t. by rewrite Hk.
  - rewrite Hsplit. destruct (Ascii.eqb c sep); eauto.
Qed.

(** A string holding the separator ends in a separator-free piece. *)
Lemma occurs_last (sep : ascii) (p : string) :
  occurs sep p = true ->
  exists pre k, p = pre +:+ String sep k /\ occurs sep k = false.
Proof.
  induction p as [|c p' IH]; simpl; [done|].
  destruct (occurs sep p') eqn:Hocc.
  - intros _. destruct (IH eq_refl) as (pre & k & -> & Hk).
    by exists (String c pre), k.
  - rewrite orb_false_r. intros ->%Ascii.eqb_eq.
    by exists EmptyString, p'.
Qed.

(** [path.split('/')[-1]] never raises: it is the whole string when the
    string holds no separator, and otherwise what follows the last
    separator. *)
Lemma last_segment (sep : ascii) (p : string) :
  exists k, index_last (split sep p) = Ok k
            /\ occurs sep k = false
            /\ (occurs sep p = false -> k = p)
            /\ (occurs sep p = true -> exists pre, p = pre +:+ String sep k).
Proof.
  destruct (occurs sep p) eqn:Hocc.
  - destruct (occurs_last sep p Hocc) as (pre & k & -> & Hk).
    exists k. destruct (split_app sep pre k) as (h & y & t & -> & Hlast).
    change (index_last (h :: y :: t)) with (index_last (y :: t)).
    rewrite Hlast, (split_free sep k Hk).
    repeat split; [done|done|]. intros _. by exists pre.
  - exists p. rewrite (split_free sep p Hocc). by repeat split.
Qed.

Lemma last_segment_of (sep : ascii) (pre k : string) :
  occurs sep k = false ->
  index_last (split sep (pre +:+ String sep k)) = Ok k.
Proof.
  intros Hk. destruct (split_app sep pre k) as (h & y & t & -> & Hlast).
  change (index_last (h :: y :: t)) with (index_last (y :: t)).
  by rewrite Hlast, (split_free sep k Hk).
Qed.

Lemma startswith_occurs (p : string) :
  startswith p "/items/" = true -> occurs slash p = true.
Proof.
  destruct p as [|c p']; [done|].
  cbn [startswith occurs]. fold slash.
  by destruct (Ascii.eqb c slash).
Qed.

(** ** Facts about the value conversions *)

Lemma rbind_Ok {A B} (r : result A) (k : A -> result B) (b : B) :
  rbind r k = Ok b -> exists a, r = Ok a /\ k a = Ok b.
Proof. destruct r as [a|e]; simpl; [by eauto | done]. Qed.

Lemma serialize_list_inv (l : list pyval) (a : attr) :
  serialize (PList l) = Ok a ->
  exists l', a = AL l' /\ Forall2 (fun x b => serialize x = Ok b) l l'.
Proof.
  simpl. intros (l' & Hgo & [= <-])%rbind_Ok. exists l'. split; [done|].
  revert l' Hgo. induction l as [|x r IH]; intros l'.
  - intros [= <-]. constructor.
  - intros (b & Hx & (r' & Hr & [= <-])%rbind_Ok)%rbind_Ok.
    constructor; [done | by apply IH].
Qed.

Lemma serialize_dict (kvs : list (string * pyval)) :
  serialize (PDict kvs) = let? it := serialize_map kvs in Ok (AM it).
Proof.
  reflexivity.
Qed.

Lemma serialize_map_inv (kvs : list (string * pyval)) (it : item) :
  serialize_map kvs = Ok it ->
  Forall2 (fun kv kb => fst kv = fst kb /\ serialize (snd kv) = Ok (snd kb)) kvs it.
Proof.
  revert it. induction kvs as [|[k x] r IH]; intros it; simpl.
  - intros [= <-]. constructor.
  - intros (b & Hx & (r' & Hr & [= <-])%rbind_Ok)%rbind_Ok.
    constructor; [done | by apply IH].
Qed.

(** Serializing keeps the attribute names, and the string values. *)
Lemma serialize_map_assoc (kvs : list (string * pyval)) (it : item) (k : string) :
  serialize_map kvs = Ok it ->
  match assoc k kvs with
  | Some v => exists b, serialize v = Ok b /\ assoc k it = Some b
  | None => assoc k it = None
  end.
Proof.
  intros H%serialize_map_inv.
  induction H as [|[k1 v] [k2 b] kvs' it' [Hk Hv] _ IH]; simpl in *; [done|].
  subst k2. destruct (String.eqb k k1); [by eauto | done].
Qed.

Lemma serialize_string (v : pyval) (s : string) :
  serialize v = Ok (AS s) -> v = PStr s.
Proof.
  destruct v as [| | n | | | | l | kvs]; simpl; try congruence.
  - unfold serialize_int. repeat case_match; congruence.
  - intros (? & _ & [=])%rbind_Ok.
  - intros (? & _ & [=])%rbind_Ok.
Qed.

(** What was stored reads back, through [DecimalEncoder], as the
    written value with its numbers taken through the decimal. *)
Lemma serialize_round_trip (v : pyval) (a : attr) :
  serialize v = Ok a -> json_of_attr a = round_trip v.
Proof.
  revert a. induction v as [| b | n | x | d | s | l IH | kvs IH] using pyval_ind;
    intros a; try (simpl; intros [= <-]; done).
  - simpl. unfold serialize_int. repeat case_match; intros [= <-]; done.
  - intros (l' & -> & Hall)%serialize_list_inv. simpl. f_equal.
    induction Hall as [|x b r r' Hx _ IHr]; simpl; [done|].
    apply Forall_cons in IH as [IHx IHrest].
    by rewrite (IHx _ Hx), (IHr IHrest).
  - rewrite serialize_dict.
    intros (it & Hall%serialize_map_inv & [= <-])%rbind_Ok. simpl. f_equal.
    induction Hall as [|[k1 x] [k2 b] r r' [Hk Hx] _ IHr]; simpl in *; [done|].
    apply Forall_cons in IH as [IHx IHrest]. subst k2.
    by rewrite (IHx _ Hx), (IHr IHrest).
Qed.

(** A storable value is one [serialize] takes. *)
Lemma storable_serialize (v : pyval) :
  storable v = true -> exists a, serialize v = Ok a.
Proof.
  induction v as [| b | n | x | d | s | l IH | kvs IH] using pyval_ind;
    simpl; try by eauto.
  - intros H. unfold serialize_int. rewrite H. by eauto.
  - intros H. enough (exists l', (fix go (l : list pyval) : result (list attr) :=
              match l with
              | [] => Ok []
              | x :: r => let? a := serialize x in let? r' := go r in Ok (a :: r')
              end) l = Ok l') as [l' ->] by (simpl; eauto).
    induction l as [|x r IHr]; [by eauto|].
    apply Forall_cons in IH as [IHx IHrest].
    simpl in H. apply andb_true_iff in H as [Hx Hr].
    destruct (IHx Hx) as [a ->]. destruct (IHr IHrest Hr) as [r' ->].
    simpl. by eauto.
  - intros H. enough (exists it, (fix go (kvs : list (string * pyval)) : result item :=
              match kvs with
              | [] => Ok []
              | (k, x) :: r => let? a := serialize x in
                               let? r' := go r in Ok ((k, a) :: r')
              end) kvs = Ok it) as [it ->] by (simpl; eauto).
    induction kvs as [|[k x] r IHr]; [by eauto|].
    apply Forall_cons in IH as [IHx IHrest].
    simpl in H, IHx. apply andb_true_iff in H as [Hx Hr].
    destruct (IHx Hx) as [a ->]. destruct (IHr IHrest Hr) as [r' ->].
    simpl. by eauto.
Qed.

Lemma storable_serialize_map (kvs : list (string * pyval)) :
  storable (PDict kvs) = true -> exists it, serialize_map kvs = Ok it.
Proof.
  intros [a Ha]%storable_serialize. rewrite serialize_dict in Ha.
  apply rbind_Ok in Ha as (it & Hit & _). by eauto.
Qed.

Lemma json_of_attr_floats (a : attr) : floats_only (json_of_attr a) = true.
Proof.
  induction a as [s | d | b | | l IH | kvs IH] using attr_ind; try done.
  - simpl. induction IH as [|x r Hx _ IHr]; [done|].
    simpl. by rewrite Hx, IHr.
  - simpl. induction IH as [|[k x] r Hx _ IHr]; [done|].
    simpl in *. by rewrite Hx, IHr.
Qed.

(** ** Facts about the encoder *)

Lemma encode_unfold (default : pyval -> result pyval) (chain : nat) (v : pyval) :
  encode default chain v =
  walk (fun obj =>
          let? obj' := default obj in
          match chain with
          | O => Raise (Exn RecursionError "maximum recursion depth exceeded")
          | S c => encode default c obj'
          end) v.
Proof. by destruct chain. Qed.

(** With [DecimalEncoder], a value read from the store is written by
    the numeric-serialization rule, and the encoder does not raise. *)
Lemma encode_deserialize (c : nat) (a : attr) :
  encode DecimalEncoder_default (S c) (deserialize a) = Ok (json_of_attr a).
Proof.
  rewrite encode_unfold.
  induction a as [s | d | b | | l IH | kvs IH] using attr_ind; try done.
  - simpl. by rewrite encode_unfold.
  - simpl.
    enough ((fix go (l : list pyval) : result (list json) :=
               match l with
               | [] => Ok []
               | x :: r =>
                   let? j := walk (fun obj =>
                       let? obj' := DecimalEncoder_default obj in
                       encode DecimalEncoder_default c obj') x in
                   let? r' := go r in Ok (j :: r')
               end) (map deserialize l) = Ok (map json_of_attr l)) as -> by done.
    induction IH as [|x r Hx _ IHr]; [done|].
    simpl in *. by rewrite Hx, IHr.
  - simpl.
    enough ((fix go (kvs : list (string * pyval)) : result (list (string * json)) :=
               match kvs with
               | [] => Ok []
               | (k, x) :: r =>
                   let? j := walk (fun obj =>
                       let? obj' := DecimalEncoder_default obj in
                       encode DecimalEncoder_default c obj') x in
                   let? r' := go r in Ok ((k, j) :: r')
               end) (map (fun kv => (fst kv, deserialize (snd kv))) kvs)
            = Ok (map (fun kv => (fst kv, json_of_attr (snd kv))) kvs)) as -> by done.
    induction IH as [|[k x] r Hx _ IHr]; [done|].
    simpl in *. by rewrite Hx, IHr.
Qed.

Lemma json_dumps_item (it : item) :
  json_dumps (deserialize_item it) DecimalEncoder_default = Ok (json_of_item it).
Proof. apply (encode_deserialize 999 (AM it)). Qed.

Lemma json_dumps_items (l : list item) :
  json_dumps (PList (map deserialize_item l)) DecimalEncoder_default
  = Ok (JArr (map json_of_item l)).
Proof.
  pose proof (encode_deserialize 999 (AL (map AM l))) as H.
  simpl in H. rewrite !map_map in H. exact H.
Qed.

(** The literals the handler dumps hold one string under one key. *)
Lemma json_dumps_pair (default : pyval -> result pyval) (k text : string) :
  json_dumps (PDict [(k, PStr text)]) default = Ok (JObj [(k, JStr text)]).
Proof. reflexivity. Qed.

(** Without [DecimalEncoder] a number of the store is not written at
    all: the plain encoder raises on it. *)
Lemma json_dumps_plain_decimal (d : Decimal) :
  json_dumps (deserialize (AN d) : pyval) JSONEncoder_default
  = Raise (Exn TypeError "Object of type Decimal is not JSON serializable").
Proof. reflexivity. Qed.

(** ** The handler, route by route *)

Ltac run :=
  unfold routes, on_exception, scan, get_item, put_item, try_except, bind, lift,
    ret, raise, log_call, reach_service, read_items, write_item,
    dict_getitem, dict_contains in *.

Lemma handler_unfold outage event context s m p :
  http_field event "method" = Ok m ->
  http_field event "path" = Ok p ->
  handler outage event context s
  = try_except (routes outage event m p) on_exception s.
Proof.
  intros Hm Hp. unfold handler, bind, lift. by rewrite Hm, Hp.
Qed.

Lemma on_exception_eq e (s : store) : on_exception e s = (Ok (internal_error e), s).
Proof. reflexivity. Qed.

(** The [except] clause turns every raise of the routes into the 500
    response, and lets their responses through. *)
Lemma try_routes outage event m p s :
  try_except (routes outage event m p) on_exception s
  = match routes outage event m p s with
    | (Ok r, s') => (Ok r, s')
    | (Raise e, s') => (Ok (internal_error e), s')
    end.
Proof. unfold try_except. by destruct (routes _ _ _ _ _) as [[r|e] s']. Qed.

Lemma eqb_items_prefix (p : string) :
  startswith p "/items/" = true -> String.eqb p "/items" = false.
Proof.
  intros H. destruct (String.eqb_spec p "/items") as [->|]; [done|done].
Qed.

(** GET /items *)
Lemma routes_list event s :
  routes None event (PStr "GET") (PStr "/items") s
  = (Ok (ok (JArr (map json_of_item (map snd (first_page (items s)))))),
     mkStore (items s) (calls s ++ [CScan])).
Proof.
  run. simpl. rewrite <- map_map, json_dumps_items. reflexivity.
Qed.

Lemma routes_list_outage e event s :
  routes (Some e) event (PStr "GET") (PStr "/items") s
  = (Raise e, mkStore (items s) (calls s ++ [CScan])).
Proof. reflexivity. Qed.

Lemma routes_by_id outage event s p k :
  startswith p "/items/" = true ->
  index_last (split slash p) = Ok k ->
  routes outage event (PStr "GET") (PStr p) s
  = match outage with
    | Some e => (Raise e, looked_up s k)
    | None =>
        if String.eqb k "" then
          (Raise (validation_error "GetItem" empty_key_message), looked_up s k)
        else match items s !! k with
             | Some it => (Ok (ok (json_of_item it)), looked_up s k)
             | None => (Ok item_not_found, looked_up s k)
             end
    end.
Proof.
  intros Hpre Hk. run. unfold py_eq_str, py_startswith, py_split.
  rewrite (eqb_items_prefix p Hpre), Hpre, Hk. simpl.
  destruct outage as [e|]; [done|]. simpl.
  destruct (String.eqb k ""); [done|]. simpl.
  destruct (items s !! k) as [it|]; [|done].
  simpl. by rewrite json_dumps_item.
Qed.

(** POST /items with a body that is the text of an object *)
Lemma routes_post outage event s text kvs :
  subscript event "body" = Ok (PStr text) ->
  json_decode text = Ok (PDict kvs) ->
  routes outage event (PStr "POST") (PStr "/items") s
  = match serialize_map kvs with
    | Raise e => (Raise e, put_logged s kvs)
    | Ok it =>
        match outage with
        | Some e => (Raise e, put_logged s kvs)
        | None =>
            match item_key it with
            | Raise e => (Raise e, put_logged s kvs)
            | Ok k => (Ok created, put_done s kvs k it)
            end
        end
    end.
Proof.
  intros Hbody Hdecode. run. simpl. rewrite Hbody. simpl. rewrite Hdecode. simpl.
  destruct (serialize_map kvs) as [it|e]; [|done]. simpl.
  destruct outage as [e|]; [done|]. simpl.
  by destruct (item_key it) as [k|e].
Qed.

Lemma item_key_inv (it : item) (k : string) :
  item_key it = Ok k -> assoc "id" it = Some (AS k) /\ k <> "".
Proof.
  unfold item_key. destruct (assoc "id" it) as [[s| | | | |]|]; try done.
  destruct (String.eqb_spec s "") as [->|Hne]; [done|].
  by intros [= <-].
Qed.

(** A POST answered 201 put the body's item under the body's id. *)
Lemma post_created_inv outage event context s s' r text kvs k :
  http_field event "method" = Ok (PStr "POST") ->
  http_field event "path" = Ok (PStr "/items") ->
  subscript event "body" = Ok (PStr text) ->
  json_decode text = Ok (PDict kvs) ->
  assoc "id" kvs = Some (PStr k) ->
  handler outage event context s = (Ok r, s') ->
  statusCode r = 201 ->
  exists it, serialize_map kvs = Ok it /\ k <> "" /\ outage = None
             /\ r = created /\ s' = put_done s kvs k it.
Proof.
  intros Hm Hp Hbody Hdecode Hid Hrun Hstatus.
  rewrite (handler_unfold _ _ _ _ _ _ Hm Hp), try_routes,
    (routes_post _ _ _ _ _ Hbody Hdecode) in Hrun.
  destruct (serialize_map kvs) as [it|e] eqn:Hser;
    [|by injection Hrun as <- <-].
  destruct outage as [e|]; [by injection Hrun as <- <-|].
  destruct (item_key it) as [k'|e] eqn:Hkey; [|by injection Hrun as <- <-].
  injection Hrun as <- <-.
  apply item_key_inv in Hkey as [Hk' Hne].
  pose proof (serialize_map_assoc kvs it "id" Hser) as Hassoc.
  rewrite Hid in Hassoc. destruct Hassoc as (b & Hb & Hit).
  simpl in Hb. injection Hb as <-. rewrite Hit in Hk'. injection Hk' as <-.
  by exists it.
Qed.

Lemma json_of_written (kvs : list (string * pyval)) (it : item) :
  serialize_map kvs = Ok it -> json_of_item it = round_trip (PDict kvs).
Proof.
  intros H. apply serialize_round_trip. rewrite serialize_dict, H. done.
Qed.

Lemma path_by_id (k : string) :
  occurs slash k = false ->
  startswith ("/items/" +:+ k) "/items/" = true
  /\ index_last (split slash ("/items/" +:+ k)) = Ok k.
Proof.
  intros Hk. split; [reflexivity|]. apply (last_segment_of slash "/items" k Hk).
Qed.

(** Reading by id what a POST answered 201 has just written. *)
Lemma read_after_write outage event context s s' r text kvs k event' context' :
  http_field event "method" = Ok (PStr "POST") ->
  http_field event "path" = Ok (PStr "/items") ->
  subscript event "body" = Ok (PStr text) ->
  json_decode text = Ok (PDict kvs) ->
  assoc "id" kvs = Some (PStr k) ->
  handler outage event context s = (Ok r, s') ->
  statusCode r = 201 ->
  occurs slash k = false ->
  http_field event' "method" = Ok (PStr "GET") ->
  http_field event' "path" = Ok (PStr ("/items/" +:+ k)) ->
  fst (handler None event' context' s') = Ok (ok (round_trip (PDict kvs))).
Proof.
  intros Hm Hp Hbody Hdecode Hid Hrun Hstatus Hk Hm' Hp'.
  destruct (post_created_inv _ _ _ _ _ _ _ _ _ Hm Hp Hbody Hdecode Hid Hrun Hstatus)
    as (it & Hser & Hne & -> & -> & ->).
  destruct (path_by_id k Hk) as [Hpre Hlast].
  rewrite (handler_unfold _ _ _ _ _ _ Hm' Hp'), try_routes,
    (routes_by_id _ _ _ _ _ Hpre Hlast).
  apply String.eqb_neq in Hne. rewrite Hne. simpl.
  rewrite lookup_insert_eq. simpl. by rewrite (json_of_written _ _ Hser).
Qed.

(** A chain of writes leaves alone every key it does not write. *)
Lemma written_frame s ws s' k :
  written s ws s' -> k ∉ map fst ws -> items s' !! k = items s !! k.
Proof.
  induction 1 as [s|s s1 s2 outage event context text k1 kvs r rest
                    Hm Hp Hbody Hdecode Hid Hrun Hstatus _ IH]; [done|].
  simpl. intros [Hne Hrest]%not_elem_of_cons.
  destruct (post_created_inv _ _ _ _ _ _ _ _ _ Hm Hp Hbody Hdecode Hid Hrun Hstatus)
    as (it & _ & _ & _ & _ & ->).
  rewrite (IH Hrest). simpl. by rewrite lookup_insert_ne.
Qed.

(** After a chain of writes with distinct ids, every written item is
    in the collection, as written. *)
Lemma written_lookup s ws s' k v :
  written s ws s' -> NoDup (map fst ws) -> (k, v) ∈ ws ->
  exists it, items s' !! k = Some it /\ json_of_item it = round_trip v.
Proof.
  induction 1 as [s|s s1 s2 outage event context text k1 kvs r rest
                    Hm Hp Hbody Hdecode Hid Hrun Hstatus Hrest IH].
  - by intros _ ?%elem_of_nil.
  - simpl. intros [Hfresh Hnodup]%NoDup_cons [[= -> ->]|Hin]%elem_of_cons;
      [|by apply IH].
    destruct (post_created_inv _ _ _ _ _ _ _ _ _ Hm Hp Hbody Hdecode Hid Hrun Hstatus)
      as (it & Hser & _ & _ & _ & ->).
    exists it. rewrite (written_frame _ _ _ _ Hrest Hfresh). simpl.
    rewrite lookup_insert_eq. by rewrite (json_of_written _ _ Hser).
Qed.

Lemma routes_post_cases outage event s :
  (exists e s', routes outage event (PStr "POST") (PStr "/items") s = (Raise e, s')
                /\ items s' = items s)
  \/ (exists text kvs k it,
        subscript event "body" = Ok (PStr text)
        /\ json_decode text = Ok (PDict kvs)
        /\ serialize_map kvs = Ok it
        /\ item_key it = Ok k
        /\ outage = None
        /\ routes outage event (PStr "POST") (PStr "/items") s
           = (Ok created, put_done s kvs k it)).
Proof.
  destruct (subscript event "body") as [raw|e] eqn:Hbody;
    [|left; run; simpl; rewrite Hbody; by eauto].
  destruct (json_loads raw) as [v|e] eqn:Hloads;
    [|left; run; simpl; rewrite Hbody; simpl; rewrite Hloads; by eauto].
  destruct raw as [| | | | |text| |]; try done. simpl in Hloads.
  destruct v as [| | | | | | |kvs];
    try (left; run; simpl; rewrite Hbody; simpl; rewrite Hloads; by eauto).
  rewrite (routes_post _ _ _ _ _ Hbody Hloads).
  destruct (serialize_map kvs) as [it|e] eqn:Hser; [|left; by eauto].
  destruct outage as [e|]; [left; by eauto|].
  destruct (item_key it) as [k|e] eqn:Hkey; [|left; by eauto].
  right. exists text, kvs, k, it. by repeat split.
Qed.

Lemma py_eq_str_true (v : pyval) (t : string) :
  py_eq_str v t = true -> v = PStr t.
Proof.
  destruct v as [| | | | |u| |]; simpl; try done.
  by intros ->%String.eqb_eq.
Qed.

(** The routes, case by case: which route a request takes and what
    comes out of it. *)
Lemma routes_cases outage event m p s :
  (m = PStr "GET" /\ p = PStr "/items"
   /\ routes outage event m p s
      = match outage with
        | Some e => (Raise e, listed s)
        | None => (Ok (ok (JArr (map json_of_item (map snd (first_page (items s)))))),
                   listed s)
        end)
  \/ (m = PStr "POST" /\ p = PStr "/items")
  \/ (m = PStr "GET" /\
      exists p' k, p = PStr p' /\ startswith p' "/items/" = true
                   /\ index_last (split slash p') = Ok k)
  \/ (exists e, routes outage event m p s = (Raise e, s))
  \/ routes outage event m p s = (Ok not_found, s).
Proof.
  destruct (py_eq_str m "GET" && py_eq_str p "/items") eqn:Hlist.
  { apply andb_true_iff in Hlist as [->%py_eq_str_true ->%py_eq_str_true].
    left. repeat split. destruct outage as [e|]; [done | apply routes_list]. }
  destruct (py_eq_str m "POST" && py_eq_str p "/items") eqn:Hpost.
  { apply andb_true_iff in Hpost as [->%py_eq_str_true ->%py_eq_str_true].
    right. by left. }
  right. right. unfold routes. rewrite Hlist, Hpost.
  destruct (py_eq_str m "GET") eqn:Hget; [|right; right; reflexivity].
  apply py_eq_str_true in Hget as ->.
  destruct p as [| | | | |p'| |]; try (right; left; by eauto).
  unfold py_startswith.
  destruct (startswith p' "/items/") eqn:Hpre; [|right; right; reflexivity].
  left. split; [done|]. destruct (last_segment slash p') as (k & Hk & _).
  by exists p', k.
Qed.

(** An invocation either raises on the event before the [try], the
    store untouched, or passes its method and path to the routes. *)
Lemma handler_inv outage event context s :
  (exists e, handler outage event context s = (Raise e, s))
  \/ (exists m p, http_field event "method" = Ok m
                  /\ http_field event "path" = Ok p
                  /\ handler outage event context s
                     = match routes outage event m p s with
                       | (Ok r, s') => (Ok r, s')
                       | (Raise e, s') => (Ok (internal_error e), s')
                       end).
Proof.
  destruct (http_field event "method") as [m|e] eqn:Hm.
  - destruct (http_field event "path") as [p|e] eqn:Hp.
    + right. exists m, p. by rewrite (handler_unfold _ _ _ _ _ _ Hm Hp), try_routes.
    + left. exists e. unfold handler, bind, lift. by rewrite Hm, Hp.
  - left. exists e. unfold handler, bind, lift. by rewrite Hm.
Qed.

Lemma posted_id_of event text kvs it k :
  subscript event "body" = Ok (PStr text) ->
  json_decode text = Ok (PDict kvs) ->
  serialize_map kvs = Ok it ->
  item_key it = Ok k ->
  posted_id event = Some k.
Proof.
  intros Hbody Hdecode Hser [Hit _]%item_key_inv.
  unfold posted_id. rewrite Hbody, Hdecode.
  pose proof (serialize_map_assoc kvs it "id" Hser) as Hassoc.
  destruct (assoc "id" kvs) as [v|]; [|congruence].
  destruct Hassoc as (b & Hb & Hit'). rewrite Hit in Hit'. injection Hit' as <-.
  by rewrite (serialize_string _ _ Hb).
Qed.

(** What an invocation does to the items: nothing, or one put under
    the id of the posted body. *)
Lemma handler_items outage event context s :
  items (snd (handler outage event context s)) = items s
  \/ (exists k it, http_field event "method" = Ok (PStr "POST")
                   /\ posted_id event = Some k
                   /\ items (snd (handler outage event context s))
                      = <[k := it]> (items s)).
Proof.
  destruct (handler_inv outage event context s) as [[e ->]|(m & p & Hm & Hp & ->)];
    [by left|].
  destruct (routes_cases outage event m p s)
    as [(-> & -> & ->)|[[-> ->]|[(-> & p' & k & -> & Hpre & Hlast)|[[e ->]| ->]]]];
    try (by left).
  - left. by destruct outage.
  - destruct (routes_post_cases outage event s)
      as [(e & s' & -> & Hsame)|(text & kvs & k & it & Hbody & Hdecode & Hser & Hkey & _ & ->)];
      [by left|].
    right. exists k, it. repeat split; [done|].
    by apply (posted_id_of _ text kvs it).
  - left. rewrite (routes_by_id _ _ _ _ _ Hpre Hlast).
    destruct outage; [done|]. destruct (String.eqb k ""); [done|].
    by destruct (items s !! k).
Qed.

(** The first page holds items of the collection only, and all of
    them when the service puts that many on it. *)
Lemma first_page_stored (m : gmap string item) k it :
  (k, it) ∈ first_page m -> m !! k = Some it.
Proof.
  unfold first_page. intros Hin. apply elem_of_map_to_list.
  apply list_elem_of_lookup in Hin as [i Hi].
  apply lookup_take_Some in Hi as [Hi _].
  by apply (list_elem_of_lookup_2 _ i).
Qed.

Lemma first_page_whole (s : store) :
  (size (items s) <= scan_page (map snd (map_to_list (items s))))%nat ->
  first_page (items s) = map_to_list (items s).
Proof.
  intros Hpage. unfold first_page. apply take_ge.
  by rewrite length_map_to_list.
Qed.

(** ** The claims *)

(** What the [try] covers.  For an event that carries
    [requestContext.http.method] and [requestContext.http.path]
    (whatever their types), the handler returns a response and raises
    nothing: a response of the routes is returned as it is, and any
    exception raised by the routes (a body that is not JSON, a refusal
    of the store, an event without body, a path that is no string) is
    turned into the response with statusCode 500, no headers, and body
    [{"error": str(e)}]. *)
Lemma handler_answers outage event context s m p :
  http_field event "method" = Ok m ->
  http_field event "path" = Ok p ->
  exists r, fst (handler outage event context s) = Ok r
            /\ match fst (routes outage event m p s) with
               | Ok r' => r = r'
               | Raise e => r = internal_error e
               end.
Proof.
  intros Hm Hp. rewrite (handler_unfold _ _ _ _ _ _ Hm Hp), try_routes.
  destruct (routes outage event m p s) as [[r|e] s']; simpl; eauto.
Qed.

(** C1, at the code.  The handler reads
    [event['requestContext']['http']] before its [try] (source lines
    105-106).  For every event whose [requestContext] is a dict
    without an [http] member, as is every event of the REST API the
    program declares (source line 181), the handler raises
    [KeyError: 'http'] past its own boundary instead of returning a
    500 response, whatever the method, the path, the body and the
    state of the store, and the store is left untouched. *)
Theorem handler_raises_without_http outage event context s members :
  subscript event "requestContext" = Ok (PDict members) ->
  dict_contains members "http" = false ->
  handler outage event context s = (Raise (Exn KeyError "'http'"), s).
Proof.
  intros Hctx Hno. unfold handler, bind, lift, http_field. rewrite Hctx.
  unfold dict_contains in Hno. simpl.
  destruct (assoc "http" members) as [v|] eqn:Hhttp; [|reflexivity].
  exfalso. apply bool_decide_eq_false in Hno. apply Hno. by exists v.
Qed.

(** C2, as amended.  An item (a JSON object with a string [id]) written
    by a POST on /items that was answered 201, its [id] holding no [/]:
    the next GET on /items/{id}, the store answering, returns 200 with
    the written item as body, each of its numbers taken through the
    store's decimal and back to a float. *)
Theorem get_returns_posted outage event context s s' r text kvs k event' context' :
  http_field event "method" = Ok (PStr "POST") ->
  http_field event "path" = Ok (PStr "/items") ->
  subscript event "body" = Ok (PStr text) ->
  json_decode text = Ok (PDict kvs) ->
  assoc "id" kvs = Some (PStr k) ->
  handler outage event context s = (Ok r, s') ->
  statusCode r = 201 ->
  occurs slash k = false ->
  http_field event' "method" = Ok (PStr "GET") ->
  http_field event' "path" = Ok (PStr ("/items/" +:+ k)) ->
  fst (handler None event' context' s') = Ok (ok (round_trip (PDict kvs))).
Proof. apply read_after_write. Qed.

(** C3.  A request whose method and path match none of the three
    routes (GET on /items, POST on /items, GET on a path starting with
    /items/) is answered statusCode 404 with body
    [{"error": "Not found"}] and no headers; the store is not called. *)
Theorem unmatched_route outage event context s m p :
  http_field event "method" = Ok (PStr m) ->
  http_field event "path" = Ok (PStr p) ->
  ~ (m = "GET" /\ p = "/items") ->
  ~ (m = "POST" /\ p = "/items") ->
  ~ (m = "GET" /\ startswith p "/items/" = true) ->
  handler outage event context s = (Ok not_found, s).
Proof.
  intros Hm Hp Hlist Hpost Hid.
  rewrite (handler_unfold _ _ _ _ _ _ Hm Hp), try_routes.
  unfold routes, py_eq_str, py_startswith.
  destruct (String.eqb m "GET") eqn:Hget;
    destruct (String.eqb p "/items") eqn:Hitems;
    destruct (String.eqb m "POST") eqn:Hnopost;
    destruct (startswith p "/items/") eqn:Hpre;
    try apply String.eqb_eq in Hget; try apply String.eqb_eq in Hitems;
    try apply String.eqb_eq in Hnopost;
    try done; try (by destruct Hlist); try (by destruct Hpost);
    try (by destruct Hid).
Qed.

(** C4, as amended.  A GET on a path under /items/ whose last segment
    [k] is not empty, the store answering: when the collection holds
    an item under [k] the response is 200 with the item as JSON,
    otherwise it is 404 with body [{"error": "Item not found"}]. *)
Theorem get_by_id event context s p k :
  http_field event "method" = Ok (PStr "GET") ->
  http_field event "path" = Ok (PStr p) ->
  startswith p "/items/" = true ->
  index_last (split slash p) = Ok k ->
  k <> "" ->
  fst (handler None event context s)
  = Ok (match items s !! k with
        | Some it => ok (json_of_item it)
        | None => item_not_found
        end).
Proof.
  intros Hm Hp Hpre Hlast Hne.
  rewrite (handler_unfold _ _ _ _ _ _ Hm Hp), try_routes,
    (routes_by_id _ _ _ _ _ Hpre Hlast).
  apply String.eqb_neq in Hne. rewrite Hne.
  by destruct (items s !! k).
Qed.

(** C5, as amended.  A POST on /items whose body is the text of a JSON
    object that carries a non-empty string [id] and holds no float and
    no integer beyond 38 digits, the store accepting the write: the
    item is put under its [id], replacing what was there, and the
    response is 201 with body [{"message": "Item created"}]. *)
Theorem post_creates_item event context s text kvs k :
  http_field event "method" = Ok (PStr "POST") ->
  http_field event "path" = Ok (PStr "/items") ->
  subscript event "body" = Ok (PStr text) ->
  json_decode text = Ok (PDict kvs) ->
  storable (PDict kvs) = true ->
  assoc "id" kvs = Some (PStr k) ->
  k <> "" ->
  exists it, serialize_map kvs = Ok it
             /\ json_of_item it = round_trip (PDict kvs)
             /\ handler None event context s = (Ok created, put_done s kvs k it).
Proof.
  intros Hm Hp Hbody Hdecode Hstorable Hid Hne.
  destruct (storable_serialize_map kvs Hstorable) as [it Hser].
  exists it. split; [done|]. split; [by apply json_of_written|].
  rewrite (handler_unfold _ _ _ _ _ _ Hm Hp), try_routes,
    (routes_post _ _ _ _ _ Hbody Hdecode), Hser.
  pose proof (serialize_map_assoc kvs it "id" Hser) as Hassoc.
  rewrite Hid in Hassoc. destruct Hassoc as (b & [= <-] & Hit).
  unfold item_key. rewrite Hit.
  apply String.eqb_neq in Hne. by rewrite Hne.
Qed.

(** C6, as amended.  An id present in the collection and holding no
    [/]: before the POST a GET on /items/{id} returns the old item;
    after a POST on /items re-using the id and answered 201, the same
    GET returns the newly written item (the store answering both). *)
Theorem post_overwrites outage event context s s' r text kvs k old event' context' :
  items s !! k = Some old ->
  http_field event "method" = Ok (PStr "POST") ->
  http_field event "path" = Ok (PStr "/items") ->
  subscript event "body" = Ok (PStr text) ->
  json_decode text = Ok (PDict kvs) ->
  assoc "id" kvs = Some (PStr k) ->
  handler outage event context s = (Ok r, s') ->
  statusCode r = 201 ->
  occurs slash k = false ->
  http_field event' "method" = Ok (PStr "GET") ->
  http_field event' "path" = Ok (PStr ("/items/" +:+ k)) ->
  fst (handler None event' context' s) = Ok (ok (json_of_item old))
  /\ fst (handler None event' context' s') = Ok (ok (round_trip (PDict kvs)))
  /\ exists it, items s' !! k = Some it
                /\ json_of_item it = round_trip (PDict kvs).
Proof.
  intros Hold Hm Hp Hbody Hdecode Hid Hrun Hstatus Hk Hm' Hp'.
  split; [|split].
  - destruct (post_created_inv _ _ _ _ _ _ _ _ _ Hm Hp Hbody Hdecode Hid Hrun Hstatus)
      as (it & _ & Hne & _).
    destruct (path_by_id k Hk) as [Hpre Hlast].
    rewrite (handler_unfold _ _ _ _ _ _ Hm' Hp'), try_routes,
      (routes_by_id _ _ _ _ _ Hpre Hlast).
    apply String.eqb_neq in Hne. by rewrite Hne, Hold.
  - by apply (read_after_write outage event context s s' r text kvs k).
  - destruct (post_created_inv _ _ _ _ _ _ _ _ _ Hm Hp Hbody Hdecode Hid Hrun Hstatus)
      as (it & Hser & _ & _ & _ & ->).
    exists it. simpl. rewrite lookup_insert_eq. by rewrite (json_of_written _ _ Hser).
Qed.

(** When the first page of the scan holds the whole collection, a GET
    on /items, the store answering, returns 200 with a JSON array that
    holds exactly the items of the collection, one entry per item; and
    when the collection comes from a chain of POSTs answered 201 with
    distinct ids (the store handed from one invocation to the next),
    every item of the chain is in the array. *)
Lemma list_items s0 ws s event context :
  written s0 ws s ->
  NoDup (map fst ws) ->
  (size (items s) <= scan_page (map snd (map_to_list (items s))))%nat ->
  http_field event "method" = Ok (PStr "GET") ->
  http_field event "path" = Ok (PStr "/items") ->
  exists l, fst (handler None event context s) = Ok (ok (JArr l))
            /\ length l = size (items s)
            /\ (forall j, j ∈ l <-> exists k it, items s !! k = Some it
                                                /\ j = json_of_item it)
            /\ (forall k v, (k, v) ∈ ws -> round_trip v ∈ l).
Proof.
  intros Hws Hnodup Hpage Hm Hp.
  exists (map json_of_item (map snd (map_to_list (items s)))).
  assert (forall j, j ∈ map json_of_item (map snd (map_to_list (items s)))
                    <-> exists k it, items s !! k = Some it /\ j = json_of_item it)
    as Hmem.
  { intros j. rewrite list_elem_of_In, in_map_iff. split.
    - intros (it & <- & ([k it'] & <- & Hin%list_elem_of_In)%in_map_iff).
      apply elem_of_map_to_list in Hin. by exists k, it'.
    - intros (k & it & Hit%elem_of_map_to_list & ->).
      exists it. split; [done|]. apply in_map_iff. exists (k, it).
      split; [done|]. by apply list_elem_of_In. }
  split; [|split; [|split]].
  - by rewrite (handler_unfold _ _ _ _ _ _ Hm Hp), try_routes, routes_list,
      (first_page_whole _ Hpage).
  - by rewrite !length_map, length_map_to_list.
  - exact Hmem.
  - intros k v Hin.
    destruct (written_lookup _ _ _ _ _ Hws Hnodup Hin) as (it & Hit & <-).
    apply Hmem. by exists k, it.
Qed.



(** C9.  A GET leaves the items of the collection as they were,
    whatever its path and whatever comes out of it; and any invocation
    leaves as it was every item but the one keyed by the [id] of the
    posted body. *)
Theorem handler_frame outage event context s :
  (http_field event "method" = Ok (PStr "GET") ->
   items (snd (handler outage event context s)) = items s)
  /\ (forall k, posted_id event <> Some k ->
                items (snd (handler outage event context s)) !! k = items s !! k).
Proof.
  destruct (handler_items outage event context s)
    as [Hsame|(k' & it & Hm & Hposted & Hput)].
  - split; [done|]. intros k _. by rewrite Hsame.
  - split; [congruence|]. intros k Hne. rewrite Hput.
    apply lookup_insert_ne. congruence.
Qed.

(** C10.  A GET on a path starting with /items/ looks up the key that
    follows the last [/] of the path: the path is [pre/k] with no [/]
    in [k], one [get_item] call is made on the table with the key
    [{'id': k}], and the request is answered with a response that is
    not the 404 of the unmatched routes. *)
Theorem by_id_lookup outage event context s p :
  http_field event "method" = Ok (PStr "GET") ->
  http_field event "path" = Ok (PStr p) ->
  startswith p "/items/" = true ->
  exists pre k,
    p = pre +:+ String slash k
    /\ occurs slash k = false
    /\ index_last (split slash p) = Ok k
    /\ calls (snd (handler outage event context s))
       = (calls s ++ [CGetItem (PDict [("id", PStr k)])])%list
    /\ exists r, fst (handler outage event context s) = Ok r /\ r <> not_found.
Proof.
  intros Hm Hp Hpre.
  destruct (last_segment slash p) as (k & Hlast & Hfree & _ & Hsome).
  destruct (Hsome (startswith_occurs p Hpre)) as [pre Hpath].
  exists pre, k. repeat split; [done..| |].
  - rewrite (handler_unfold _ _ _ _ _ _ Hm Hp), try_routes,
      (routes_by_id _ _ _ _ _ Hpre Hlast).
    destruct outage; [done|]. destruct (String.eqb k ""); [done|].
    by destruct (items s !! k).
  - rewrite (handler_unfold _ _ _ _ _ _ Hm Hp), try_routes,
      (routes_by_id _ _ _ _ _ Hpre Hlast).
    destruct outage; [by eexists|]. destruct (String.eqb k ""); [by eexists|].
    destruct (items s !! k); by eexists.
Qed.

(** ** Further properties of the handler *)

#[local] Set Warnings "-clear-no-such-hyp".

(** The POST route, step by step: the body is read and parsed before
    the table is called. *)
Lemma routes_post_steps outage event (s : store) :
  routes outage event (PStr "POST") (PStr "/items") s
  = match subscript event "body" with
    | Raise e => (Raise e, s)
    | Ok raw =>
        match json_loads raw with
        | Raise e => (Raise e, s)
        | Ok v =>
            match put_item outage v s with
            | (Ok _, s') => (Ok created, s')
            | (Raise e, s') => (Raise e, s')
            end
        end
    end.
Proof.
  unfold routes, bind, lift, ret. simpl.
  destruct (subscript event "body") as [raw|e]; [|done].
  destruct (json_loads raw) as [v|e]; [|done].
  by destruct (put_item outage v s) as [[?|?] ?].
Qed.

(** [put_item] logs its call, and either raises with the items as they
    were or puts the item under its key. *)
Lemma put_item_cases outage (v : pyval) (s : store) :
  (exists e, put_item outage v s
             = (Raise e, mkStore (items s) (calls s ++ [CPutItem v])))
  \/ (exists kvs it k,
        v = PDict kvs /\ serialize_map kvs = Ok it /\ item_key it = Ok k
        /\ outage = None
        /\ put_item outage v s = (Ok [], put_done s kvs k it)).
Proof.
  unfold put_item, bind, lift, ret, raise, log_call, reach_service, write_item.
  destruct v as [| | | | | | |kvs]; try (left; by eauto).
  simpl. destruct (serialize_map kvs) as [it|e] eqn:Hser; [|left; by eauto].
  destruct outage as [e|]; [left; by eauto|].
  destruct (item_key it) as [k|e] eqn:Hkey; [|left; by eauto].
  right. exists kvs, it, k. by repeat split.
Qed.

Lemma handler_ending outage event context (s : store) :
  ending outage event s (fst (handler outage event context s))
    (snd (handler outage event context s)).
Proof.
  destruct (handler_inv outage event context s) as [[e ->]|(m & p & Hm & Hp & ->)];
    [constructor|].
  destruct (routes_cases outage event m p s)
    as [(-> & -> & ->)|[[-> ->]|[(-> & p' & k & -> & Hpre & Hlast)|[[e ->]| ->]]]].
  - destruct outage as [e|]; simpl; [apply ends_failing_in_call | by constructor].
  - rewrite routes_post_steps.
    destruct (subscript event "body") as [raw|e] eqn:Hbody; [|constructor].
    destruct (json_loads raw) as [v|e] eqn:Hloads; [|constructor].
    destruct (put_item_cases outage v s)
      as [[e ->]|(kvs & it & k & -> & Hser & Hkey & -> & ->)];
      [apply ends_failing_in_call|].
    destruct raw as [| | | | |text| |]; try done. simpl in Hloads.
    apply ends_creating; try done.
    by apply (posted_id_of _ text kvs it).
  - rewrite (routes_by_id _ _ _ _ _ Hpre Hlast).
    destruct outage as [e|]; [apply ends_failing_in_call|].
    destruct (String.eqb_spec k "") as [->|Hne]; [apply ends_failing_in_call|].
    destruct (items s !! k) as [it|] eqn:Hit; simpl; by constructor.
  - constructor.
  - constructor.
Qed.

(** X1.  A response is either a success, with statusCode 200 or 201
    and the JSON content type as its one header, or an error, with
    statusCode 404 or 500, no headers, and a body of the form
    [{"error": message}]. *)
Theorem response_shape outage event context (s : store) r s' :
  handler outage event context s = (Ok r, s') ->
  ((statusCode r = 200 \/ statusCode r = 201) /\ headers r = json_headers)
  \/ ((statusCode r = 404 \/ statusCode r = 500) /\ headers r = None
      /\ exists message, body r = error_body message).
Proof.
  intros Hrun. pose proof (handler_ending outage event context s) as Hend.
  rewrite Hrun in Hend. simpl in Hend.
  inversion Hend; subst; simpl; try (left; split; [by auto | done]);
    right; (split; [by auto|]); (split; [done|]); by eexists.
Qed.

Lemma ending_calls outage event (s : store) o s' :
  ending outage event s o s' ->
  (calls s' = calls s \/ exists c, calls s' = (calls s ++ [c])%list)
  /\ (forall r, o = Ok r -> statusCode r = 200 \/ statusCode r = 201 ->
                exists c, calls s' = (calls s ++ [c])%list)
  /\ (o = Ok not_found \/ (exists e, o = Raise e) -> s' = s).
Proof.
  destruct 1; (split; [|split]); simpl;
    try (by left); try (right; by eexists); try done;
    try (intros r [= <-] [?|?]; simpl in *; first [done | by eexists]);
    intros [[=]|[e' [=]]].
Qed.

(** X2.  An invocation calls the table at most once; it calls it
    exactly once when it answers 200 or 201, and not at all when it
    answers the 404 of the unmatched routes or raises. *)
Theorem one_store_call outage event context (s : store) :
  (calls (snd (handler outage event context s)) = calls s
   \/ exists c, calls (snd (handler outage event context s)) = (calls s ++ [c])%list)
  /\ (forall r, fst (handler outage event context s) = Ok r ->
                statusCode r = 200 \/ statusCode r = 201 ->
                exists c, calls (snd (handler outage event context s))
                          = (calls s ++ [c])%list)
  /\ (fst (handler outage event context s) = Ok not_found
      \/ (exists e, fst (handler outage event context s) = Raise e) ->
      snd (handler outage event context s) = s).
Proof. apply (ending_calls outage event), handler_ending. Qed.

Lemma ending_write outage event (s : store) o s' :
  ending outage event s o s' ->
  (o = Ok created
   /\ exists k it, posted_id event = Some k /\ assoc "id" it = Some (AS k)
                   /\ k <> "" /\ items s' = <[k := it]> (items s))
  \/ ((forall r, o = Ok r -> statusCode r <> 201) /\ items s' = items s).
Proof.
  destruct 1; try (right; split; [by intros r [= <-] | done]).
  left. split; [done|]. exists k, it.
  split; [done|]. by destruct (item_key_inv it k).
Qed.

(** X3.  No partial success: either the invocation answers 201 and
    has put exactly one item, under the non-empty [id] of the posted
    body and carrying that [id]; or it answers anything else (or raises) and
    the items of the collection are as they were. *)
Theorem write_iff_created outage event context (s : store) :
  (fst (handler outage event context s) = Ok created
   /\ exists k it, posted_id event = Some k /\ assoc "id" it = Some (AS k)
                   /\ k <> ""
                   /\ items (snd (handler outage event context s))
                      = <[k := it]> (items s))
  \/ ((forall r, fst (handler outage event context s) = Ok r -> statusCode r <> 201)
      /\ items (snd (handler outage event context s)) = items s).
Proof. apply (ending_write outage event), handler_ending. Qed.

(** X4.  A POST on /items whose event has no body, or a body that is
    no string, or a body that is not JSON, is answered 500 with the
    text of that failure, and the table is not called. *)
Theorem bad_body_skips_store outage event context (s : store) e :
  http_field event "method" = Ok (PStr "POST") ->
  http_field event "path" = Ok (PStr "/items") ->
  (let? raw := subscript event "body" in json_loads raw) = Raise e ->
  handler outage event context s = (Ok (internal_error e), s).
Proof.
  intros Hm Hp Hbad.
  rewrite (handler_unfold _ _ _ _ _ _ Hm Hp), try_routes, routes_post_steps.
  destruct (subscript event "body") as [raw|e1]; simpl in Hbad.
  - by rewrite Hbad.
  - by injection Hbad as ->.
Qed.

Lemma ending_outage e0 event (s : store) o s' :
  ending (Some e0) event s o s' ->
  items s' = items s
  /\ forall r, o = Ok r -> statusCode r = 404 \/ statusCode r = 500.
Proof.
  intros H. inversion H; subst; try done;
    (split; [done|]); intros r [= <-]; simpl; by auto.
Qed.

(** X5.  While the store is in outage the collection stays as it is
    and no request is answered 200 or 201; a GET on /items, and a GET
    on a path under /items/, is answered 500 with the text of the
    store's failure. *)
Theorem outage_is_500 e event context (s : store) :
  items (snd (handler (Some e) event context s)) = items s
  /\ (forall r, fst (handler (Some e) event context s) = Ok r ->
                statusCode r = 404 \/ statusCode r = 500)
  /\ (forall p, http_field event "method" = Ok (PStr "GET") ->
                http_field event "path" = Ok (PStr p) ->
                p = "/items" \/ startswith p "/items/" = true ->
                fst (handler (Some e) event context s) = Ok (internal_error e)).
Proof.
  destruct (ending_outage e event s _ _ (handler_ending (Some e) event context s))
    as [Hitems Hstatus].
  split; [done|]. split; [done|].
  intros p Hm Hp [->|Hpre];
    rewrite (handler_unfold _ _ _ _ _ _ Hm Hp), try_routes.
  - by rewrite routes_list_outage.
  - destruct (last_segment slash p) as (k & Hlast & _).
    by rewrite (routes_by_id _ _ _ _ _ Hpre Hlast).
Qed.

(** ** Runs *)

Lemma run_cons i invs (s : store) :
  snd (run (i :: invs) s)
  = snd (run invs (snd (handler (inv_outage i) (inv_event i) (inv_context i) s))).
Proof.
  simpl. destruct (handler _ _ _ s) as [o s1]. simpl.
  by destruct (run invs s1).
Qed.

(** What holds of the items before a run and is kept by every
    invocation holds after the run. *)
Lemma run_invariant (P : store -> Prop) invs (s : store) :
  (forall outage event context s0,
     P s0 -> P (snd (handler outage event context s0))) ->
  P s -> P (snd (run invs s)).
Proof.
  intros Hstep. revert s. induction invs as [|i invs IH]; intros s Hs; [done|].
  rewrite run_cons. by apply IH, Hstep.
Qed.

(** X6.  No invocation removes an item: the keys of the collection
    before a run are keys of the collection after it. *)
Theorem keys_never_vanish invs (s : store) :
  dom (items s) ⊆ dom (items (snd (run invs s))).
Proof.
  apply (run_invariant (fun s' => dom (items s) ⊆ dom (items s'))); [|done].
  intros outage event context s0 Hsub.
  destruct (ending_write outage event s0 _ _ (handler_ending outage event context s0))
    as [(_ & k & it & _ & _ & _ & ->)|[_ ->]]; [|done].
  rewrite dom_insert_L. set_solver.
Qed.

Lemma handler_well_keyed outage event context (s : store) :
  well_keyed s -> well_keyed (snd (handler outage event context s)).
Proof.
  intros Hwk.
  destruct (ending_write outage event s _ _ (handler_ending outage event context s))
    as [(_ & k & it & _ & Hid & Hne & Hput)|[_ Hsame]]; unfold well_keyed.
  - rewrite Hput. intros k' it' Hlook.
    destruct (decide (k = k')) as [<-|Hother].
    + rewrite lookup_insert_eq in Hlook. by injection Hlook as <-.
    + rewrite lookup_insert_ne in Hlook by done. by apply Hwk.
  - rewrite Hsame. apply Hwk.
Qed.

(** X7.  The collection stays well keyed through any run: when every
    item is stored under the non-empty string it carries as [id]
    before the run, so it is after it. *)
Theorem run_well_keyed invs (s : store) :
  well_keyed s -> well_keyed (snd (run invs s)).
Proof.
  apply (run_invariant well_keyed). intros outage event context s0.
  apply handler_well_keyed.
Qed.

Lemma run_frame invs (s : store) k :
  Forall (fun i => posted_id (inv_event i) <> Some k) invs ->
  items (snd (run invs s)) !! k = items s !! k.
Proof.
  intros Hall. revert s. induction Hall as [|i invs Hi _ IH]; intros s; [done|].
  rewrite run_cons, IH.
  destruct (ending_write (inv_outage i) (inv_event i) s _ _
              (handler_ending (inv_outage i) (inv_event i) (inv_context i) s))
    as [(_ & k' & it & Hposted & _ & _ & ->)|[_ ->]]; [|done].
  apply lookup_insert_ne. congruence.
Qed.

(** X8.  An item written by a POST answered 201, its [id] holding no
    [/], stays readable: after any run in which no request posts a
    body with that [id], a GET on /items/{id} (the store answering)
    returns 200 with the written item. *)
Theorem written_item_persists outage event context (s s1 : store) r text kvs k
        invs event' context' :
  http_field event "method" = Ok (PStr "POST") ->
  http_field event "path" = Ok (PStr "/items") ->
  subscript event "body" = Ok (PStr text) ->
  json_decode text = Ok (PDict kvs) ->
  assoc "id" kvs = Some (PStr k) ->
  handler outage event context s = (Ok r, s1) ->
  statusCode r = 201 ->
  occurs slash k = false ->
  Forall (fun i => posted_id (inv_event i) <> Some k) invs ->
  http_field event' "method" = Ok (PStr "GET") ->
  http_field event' "path" = Ok (PStr ("/items/" +:+ k)) ->
  fst (handler None event' context' (snd (run invs s1)))
  = Ok (ok (round_trip (PDict kvs))).
Proof.
  intros Hm Hp Hbody Hdecode Hid Hrun Hstatus Hk Hall Hm' Hp'.
  destruct (post_created_inv _ _ _ _ _ _ _ _ _ Hm Hp Hbody Hdecode Hid Hrun Hstatus)
    as (it & Hser & Hne & -> & -> & ->).
  destruct (path_by_id k Hk) as [Hpre Hlast].
  rewrite (handler_unfold _ _ _ _ _ _ Hm' Hp'), try_routes,
    (routes_by_id _ _ _ _ _ Hpre Hlast).
  apply String.eqb_neq in Hne. rewrite Hne.
  rewrite (run_frame invs _ k Hall). simpl. rewrite lookup_insert_eq.
  by rewrite (json_of_written _ _ Hser).
Qed.

(** ** The ids of what is read *)

Lemma assoc_map {A B} (f : A -> B) k (l : list (string * A)) :
  assoc k (map (fun kv => (fst kv, f (snd kv))) l) = option_map f (assoc k l).
Proof.
  induction l as [|[k' v] l IH]; [done|].
  simpl. by destruct (String.eqb k k').
Qed.

Lemma json_id_item (s : store) k it :
  well_keyed s -> items s !! k = Some it -> json_id (json_of_item it) = Some k.
Proof.
  intros Hwk Hit. destruct (Hwk k it Hit) as [Hid _].
  unfold json_id, json_of_item. simpl. by rewrite assoc_map, Hid.
Qed.

(** X9.  On a well-keyed collection, the item a GET under /items/
    returns with statusCode 200 carries as [id] the last segment of
    the path: the handler returns the item asked for and no other. *)
Theorem get_by_id_carries_id outage event context (s : store) p r s' :
  well_keyed s ->
  http_field event "method" = Ok (PStr "GET") ->
  http_field event "path" = Ok (PStr p) ->
  startswith p "/items/" = true ->
  handler outage event context s = (Ok r, s') ->
  statusCode r = 200 ->
  exists k, index_last (split slash p) = Ok k /\ json_id (body r) = Some k.
Proof.
  intros Hwk Hm Hp Hpre Hrun Hstatus.
  destruct (last_segment slash p) as (k & Hlast & _).
  exists k. split; [done|].
  rewrite (handler_unfold _ _ _ _ _ _ Hm Hp), try_routes,
    (routes_by_id _ _ _ _ _ Hpre Hlast) in Hrun.
  destruct outage; [by injection Hrun as <- <-|].
  destruct (String.eqb k ""); [by injection Hrun as <- <-|].
  destruct (items s !! k) as [it|] eqn:Hit; injection Hrun as <- <-; [|done].
  by apply (json_id_item s).
Qed.

(** X10.  On a well-keyed collection, the array a GET on /items
    returns holds no two items with the same [id]: every entry has a
    string [id], and these ids are pairwise distinct. *)
Theorem listing_ids_distinct event context (s : store) :
  well_keyed s ->
  http_field event "method" = Ok (PStr "GET") ->
  http_field event "path" = Ok (PStr "/items") ->
  exists l, fst (handler None event context s) = Ok (ok (JArr l))
            /\ Forall (fun j => is_Some (json_id j)) l
            /\ NoDup (map json_id l).
Proof.
  intros Hwk Hm Hp.
  exists (map json_of_item (map snd (first_page (items s)))).
  split; [by rewrite (handler_unfold _ _ _ _ _ _ Hm Hp), try_routes, routes_list|].
  assert (map json_id (map json_of_item (map snd (first_page (items s))))
          = map Some (map fst (first_page (items s)))) as Hids.
  { rewrite !map_map. apply map_ext_in. intros [k it] Hin. simpl.
    apply (json_id_item s); [done|].
    by apply first_page_stored, list_elem_of_In. }
  split.
  - apply Forall_forall. intros j Hj.
    apply list_elem_of_In, in_map_iff in Hj as (it & <- & Hit).
    apply in_map_iff in Hit as ([k it'] & <- & Hin). simpl.
    exists k. apply (json_id_item s); [done|].
    by apply first_page_stored, list_elem_of_In.
  - rewrite Hids. apply (NoDup_fmap_2 Some).
    apply (sublist_NoDup (fst <$> first_page (items s))
                         (fst <$> map_to_list (items s))).
    + apply NoDup_fst_map_to_list.
    + apply fmap_sublist, sublist_take.
Qed.

(** X11.  An item whose [id] holds a [/] cannot be fetched by id: on a
    well-keyed collection no GET under /items/, whatever its path,
    returns that item. *)
Theorem slashed_id_unreachable outage event context (s : store) p k it :
  well_keyed s ->
  items s !! k = Some it ->
  occurs slash k = true ->
  http_field event "method" = Ok (PStr "GET") ->
  http_field event "path" = Ok (PStr p) ->
  startswith p "/items/" = true ->
  fst (handler outage event context s) <> Ok (ok (json_of_item it)).
Proof.
  intros Hwk Hit Hslash Hm Hp Hpre.
  destruct (last_segment slash p) as (k' & Hlast & Hfree & _).
  rewrite (handler_unfold _ _ _ _ _ _ Hm Hp), try_routes,
    (routes_by_id _ _ _ _ _ Hpre Hlast).
  destruct outage; [done|]. destruct (String.eqb k' ""); [done|].
  destruct (items s !! k') as [it'|] eqn:Hit'; [|done].
  simpl. intros Heq.
  assert (json_id (json_of_item it') = json_id (json_of_item it)) as Hids.
  { unfold json_of_item. simpl. by injection Heq as ->. }
  rewrite (json_id_item s k' it' Hwk Hit'), (json_id_item s k it Hwk Hit) in Hids.
  injection Hids as ->. congruence.
Qed.

(** ** The call log is write-only *)

Local Abbreviation M := (@M pyfloat).
Local Abbreviation respects := (@respects pyfloat).

Lemma respects_ret {A} (a : A) : respects (ret a : M A).
Proof. by intros s1 s2 H. Qed.

Lemma respects_raise {A} e : respects (raise e : M A).
Proof. by intros s1 s2 H. Qed.

Lemma respects_lift {A} (r : result A) : respects (lift r : M A).
Proof. by intros s1 s2 H. Qed.

Lemma respects_bind {A B} (m : M A) (k : A -> M B) :
  respects m -> (forall a, respects (k a)) -> respects (bind m k).
Proof.
  intros Hm Hk s1 s2 H. unfold bind.
  destruct (Hm s1 s2 H) as [Ho Hs].
  destruct (m s1) as [[a1|e1] t1], (m s2) as [[a2|e2] t2]; simpl in *;
    try done; injection Ho as <-; first [by apply Hk | done].
Qed.

Lemma respects_try {A} (body : M A) (h : exn -> M A) :
  respects body -> (forall e, respects (h e)) -> respects (try_except body h).
Proof.
  intros Hbody Hh s1 s2 H. unfold try_except.
  destruct (Hbody s1 s2 H) as [Ho Hs].
  destruct (body s1) as [[a1|e1] t1], (body s2) as [[a2|e2] t2]; simpl in *;
    try done; injection Ho as <-; by apply Hh.
Qed.

Lemma respects_log c : respects (log_call c).
Proof. by intros s1 s2 H. Qed.

Lemma respects_reach outage : respects (reach_service outage).
Proof. by destruct outage; intros s1 s2 H. Qed.

Lemma respects_read : respects read_items.
Proof. intros s1 s2 H. unfold read_items. simpl. split; [by rewrite H | done]. Qed.

Lemma respects_write k it : respects (write_item k it).
Proof.
  intros s1 s2 H. unfold write_item, same_items in *. simpl. by rewrite H.
Qed.

Ltac respect :=
  repeat first
    [ apply respects_ret | apply respects_raise | apply respects_lift
    | apply respects_log | apply respects_reach | apply respects_read
    | apply respects_write
    | apply respects_bind; [|intros ?]
    | apply respects_try; [|intros ?]
    | match goal with
      | |- respects (match ?x with _ => _ end) => destruct x
      end ].

Lemma respects_scan outage : respects (scan outage).
Proof. unfold scan. respect. Qed.

Lemma respects_get_item outage Key : respects (get_item outage Key).
Proof. unfold get_item. respect. Qed.

Lemma respects_put_item outage Item : respects (put_item outage Item).
Proof. unfold put_item. respect. Qed.

Lemma respects_routes outage event m p : respects (routes outage event m p).
Proof.
  unfold routes.
  repeat first
    [ apply respects_scan | apply respects_get_item | apply respects_put_item
    | progress respect ].
Qed.

Lemma respects_handler outage event context :
  respects (handler outage event context).
Proof.
  unfold handler, on_exception.
  repeat first [ apply respects_routes | progress respect ].
Qed.

(** X13.  Reads do not interfere: after a GET, whatever its path and
    its outcome, every request is answered as it would have been
    before it. *)
Theorem reads_do_not_interfere outage0 get context0 outage event context (s : store) :
  http_field get "method" = Ok (PStr "GET") ->
  fst (handler outage event context (snd (handler outage0 get context0 s)))
  = fst (handler outage event context s).
Proof.
  intros Hget. apply respects_handler. unfold same_items.
  destruct (handler_items outage0 get context0 s)
    as [Hsame|(k & it & Hpost & _)]; [done | congruence].
Qed.

(** ** How POSTs compose *)

(** What an answer 201 tells about the request. *)
Lemma created_inv outage event context (s : store) r s' :
  handler outage event context s = (Ok r, s') ->
  statusCode r = 201 ->
  exists text kvs k it,
    http_field event "method" = Ok (PStr "POST")
    /\ http_field event "path" = Ok (PStr "/items")
    /\ subscript event "body" = Ok (PStr text)
    /\ json_decode text = Ok (PDict kvs)
    /\ serialize_map kvs = Ok it
    /\ item_key it = Ok k
    /\ outage = None /\ r = created /\ s' = put_done s kvs k it.
Proof.
  intros Hrun Hstatus.
  destruct (handler_inv outage event context s) as [[e He]|(m & p & Hm & Hp & Heq)];
    [congruence|].
  rewrite Heq in Hrun. clear Heq.
  destruct (routes_cases outage event m p s)
    as [(-> & -> & Hr)|[[-> ->]|[(-> & p' & k & -> & Hpre & Hlast)|[[e Hr]|Hr]]]].
  - rewrite Hr in Hrun. by destruct outage; injection Hrun as <- <-.
  - destruct (routes_post_cases outage event s)
      as [(e & s1 & Hr & _)|(text & kvs & k & it & Hbody & Hdecode & Hser & Hkey & -> & Hr)];
      rewrite Hr in Hrun; injection Hrun as <- <-; [done|].
    exists text, kvs, k, it. by repeat split.
  - rewrite (routes_by_id _ _ _ _ _ Hpre Hlast) in Hrun.
    destruct outage; [by injection Hrun as <- <-|].
    destruct (String.eqb k ""); [by injection Hrun as <- <-|].
    by destruct (items s !! k) as [it|]; injection Hrun as <- <-.
  - rewrite Hr in Hrun. by injection Hrun as <- <-.
  - rewrite Hr in Hrun. by injection Hrun as <- <-.
Qed.

(** Whether a POST is answered 201 does not depend on the collection. *)
Lemma created_anywhere event context text kvs k it (s : store) :
  http_field event "method" = Ok (PStr "POST") ->
  http_field event "path" = Ok (PStr "/items") ->
  subscript event "body" = Ok (PStr text) ->
  json_decode text = Ok (PDict kvs) ->
  serialize_map kvs = Ok it ->
  item_key it = Ok k ->
  handler None event context s = (Ok created, put_done s kvs k it).
Proof.
  intros Hm Hp Hbody Hdecode Hser Hkey.
  by rewrite (handler_unfold _ _ _ _ _ _ Hm Hp), try_routes,
    (routes_post _ _ _ _ _ Hbody Hdecode), Hser, Hkey.
Qed.

(** X14.  POST is idempotent on the items: a request answered 201 is
    answered 201 again when repeated, and the items of the collection
    after the repeat are those after the first. *)
Theorem post_twice outage event context context' (s s1 : store) r :
  handler outage event context s = (Ok r, s1) ->
  statusCode r = 201 ->
  fst (handler outage event context' s1) = Ok created
  /\ items (snd (handler outage event context' s1)) = items s1.
Proof.
  intros Hrun Hstatus.
  destruct (created_inv _ _ _ _ _ _ Hrun Hstatus)
    as (text & kvs & k & it & Hm & Hp & Hbody & Hdecode & Hser & Hkey & -> & -> & ->).
  rewrite (created_anywhere event context' text kvs k it _ Hm Hp Hbody Hdecode Hser Hkey).
  split; [done|]. simpl. apply insert_insert_eq.
Qed.

(** X15.  POSTs of different ids commute: when two requests are
    answered 201 one after the other and their bodies carry different
    ids, they are answered 201 in the other order as well, and the
    collection ends with the same items. *)
Theorem posts_commute event1 context1 event2 context2 (s s1 s2 : store) r1 r2 :
  handler None event1 context1 s = (Ok r1, s1) ->
  statusCode r1 = 201 ->
  handler None event2 context2 s1 = (Ok r2, s2) ->
  statusCode r2 = 201 ->
  posted_id event1 <> posted_id event2 ->
  exists s1' s2',
    handler None event2 context2 s = (Ok created, s1')
    /\ handler None event1 context1 s1' = (Ok created, s2')
    /\ items s2' = items s2.
Proof.
  intros Hrun1 Hstatus1 Hrun2 Hstatus2 Hids.
  destruct (created_inv _ _ _ _ _ _ Hrun1 Hstatus1)
    as (t1 & kvs1 & k1 & it1 & Hm1 & Hp1 & Hb1 & Hd1 & Hser1 & Hkey1 & _ & -> & ->).
  destruct (created_inv _ _ _ _ _ _ Hrun2 Hstatus2)
    as (t2 & kvs2 & k2 & it2 & Hm2 & Hp2 & Hb2 & Hd2 & Hser2 & Hkey2 & _ & -> & ->).
  rewrite (posted_id_of _ _ _ _ _ Hb1 Hd1 Hser1 Hkey1),
    (posted_id_of _ _ _ _ _ Hb2 Hd2 Hser2 Hkey2) in Hids.
  eexists _, _. split; [|split].
  - by apply (created_anywhere event2 context2 t2 kvs2 k2 it2).
  - by apply (created_anywhere event1 context1 t1 kvs1 k1 it1).
  - simpl. apply insert_insert_ne. congruence.
Qed.

(** X16.  After a chain of POSTs answered 201 on the empty collection,
    the keys of the collection are exactly the ids posted: a GET on
    /items lists one item per distinct id. *)
Theorem written_keys (s0 s : store) ws :
  items s0 = ∅ ->
  written s0 ws s ->
  dom (items s) = list_to_set (map fst ws).
Proof.
  intros Hempty Hws.
  enough (dom (items s) = list_to_set (map fst ws) ∪ dom (items s0)) as ->.
  { rewrite Hempty, dom_empty_L. set_solver. }
  clear Hempty.
  induction Hws as [s|s s1 s2 outage event context text k kvs r rest
                      Hm Hp Hbody Hdecode Hid Hrun Hstatus _ IH].
  - simpl. set_solver.
  - destruct (post_created_inv _ _ _ _ _ _ _ _ _ Hm Hp Hbody Hdecode Hid Hrun Hstatus)
      as (it & _ & _ & _ & _ & ->).
    rewrite IH. simpl. rewrite dom_insert_L. set_solver.
Qed.

(** ** The two encoders *)

Lemma walk_spec (fallback : pyval -> result json) e :
  (forall d, fallback (PDecimal d) = Raise e) ->
  forall v, walk fallback v = if holds_decimal v then Raise e else Ok (dumped v).
Proof.
  intros Hfall.
  induction v as [| b | n | x | d | s | l IH | kvs IH] using pyval_ind; try done.
  - apply Hfall.
  - simpl.
    enough ((fix go (l : list pyval) : result (list json) :=
               match l with
               | [] => Ok []
               | x :: r => let? j := walk fallback x in
                           let? r' := go r in Ok (j :: r')
               end) l
            = if existsb holds_decimal l then Raise e else Ok (map dumped l)) as ->
      by (by destruct (existsb holds_decimal l)).
    induction IH as [|x r Hx _ IHr]; [done|].
    simpl. rewrite Hx, IHr. destruct (holds_decimal x); [done|].
    simpl. by destruct (existsb holds_decimal r).
  - simpl.
    enough ((fix go (kvs : list (string * pyval)) : result (list (string * json)) :=
               match kvs with
               | [] => Ok []
               | (k, x) :: r => let? j := walk fallback x in
                                let? r' := go r in Ok ((k, j) :: r')
               end) kvs
            = if existsb (fun kv => holds_decimal (snd kv)) kvs then Raise e
              else Ok (map (fun kv => (fst kv, dumped (snd kv))) kvs)) as ->
      by (by destruct (existsb (fun kv => holds_decimal (snd kv)) kvs)).
    induction IH as [|[k x] r Hx _ IHr]; [done|].
    simpl in *. rewrite Hx, IHr. destruct (holds_decimal x); [done|].
    simpl. by destruct (existsb (fun kv => holds_decimal (snd kv)) r).
Qed.

Lemma walk_decimals (fallback : pyval -> result json) :
  (forall d, fallback (PDecimal d) = Ok (JFloat (float_of_Decimal d))) ->
  forall v, walk fallback v = Ok (dumped v).
Proof.
  intros Hfall.
  induction v as [| b | n | x | d | s | l IH | kvs IH] using pyval_ind; try done.
  - apply Hfall.
  - simpl.
    enough ((fix go (l : list pyval) : result (list json) :=
               match l with
               | [] => Ok []
               | x :: r => let? j := walk fallback x in
                           let? r' := go r in Ok (j :: r')
               end) l = Ok (map dumped l)) as -> by done.
    induction IH as [|x r Hx _ IHr]; [done|]. simpl. by rewrite Hx, IHr.
  - simpl.
    enough ((fix go (kvs : list (string * pyval)) : result (list (string * json)) :=
               match kvs with
               | [] => Ok []
               | (k, x) :: r => let? j := walk fallback x in
                                let? r' := go r in Ok ((k, j) :: r')
               end) kvs
            = Ok (map (fun kv => (fst kv, dumped (snd kv))) kvs)) as -> by done.
    induction IH as [|[k x] r Hx _ IHr]; [done|]. simpl in *. by rewrite Hx, IHr.
Qed.

(** X17.  [json.dumps] with [DecimalEncoder] never raises on a value
    of the handler: it writes every [Decimal], at any depth, as the
    float it converts to.  The plain encoder writes the same document
    when the value holds no [Decimal], and raises [TypeError] exactly
    when it holds one. *)
Theorem DecimalEncoder_extends_plain (v : pyval) :
  json_dumps v DecimalEncoder_default = Ok (dumped v)
  /\ json_dumps v JSONEncoder_default
     = if holds_decimal v
       then Raise (Exn TypeError "Object of type Decimal is not JSON serializable")
       else Ok (dumped v).
Proof.
  split.
  - unfold json_dumps. rewrite encode_unfold. by apply walk_decimals.
  - unfold json_dumps. rewrite encode_unfold. by apply walk_spec.
Qed.

(** ** The names of the stack's resources *)

Lemma append_cancel_l (p a b : string) : p +:+ a = p +:+ b -> a = b.
Proof.
  induction p as [|c p IH]; [done|].
  change (String c (p +:+ a) = String c (p +:+ b) -> a = b).
  intros [= H]. by apply IH.
Qed.

Lemma length_append (a b : string) :
  String.length (a +:+ b) = (String.length a + String.length b)%nat.
Proof.
  induction a as [|x a IH]; [done|].
  change (S (String.length (a +:+ b)) = S (String.length a + String.length b)).
  by rewrite IH.
Qed.

Lemma append_cancel_r (a b c : string) : a +:+ c = b +:+ c -> a = b.
Proof.
  revert b. induction a as [|x a IH]; intros [|y b] H; simpl in H.
  - done.
  - apply (f_equal String.length) in H.
    rewrite !length_append in H. simpl in H. lia.
  - apply (f_equal String.length) in H.
    rewrite !length_append in H. simpl in H. lia.
  - change (String x (a +:+ c) = String y (b +:+ c)) in H.
    injection H as -> H. by rewrite (IH b H).
Qed.

(** X20.  The names of the table and of the function tell the stacks
    apart: two stacks with the same table name, or with the same
    function name, are the same stack. *)
Theorem stack_names_isolated (environment1 environment2 : string) :
  (table_name environment1 = table_name environment2 ->
   environment1 = environment2)
  /\ (function_name environment1 = function_name environment2 ->
      environment1 = environment2).
Proof.
  unfold table_name, function_name. split; intros H;
    apply append_cancel_l, append_cancel_l in H;
    by apply append_cancel_r in H.
Qed.

(** X21.  With the environment the program declares for it, the
    function of a stack starts and binds its [Table] resource to the
    table of that stack; the functions of two different stacks are
    never bound to the same table.  Without [TABLE_NAME] the start
    fails with a [KeyError]. *)
Theorem function_bound_to_own_table (environment1 environment2 : string) :
  lambda_init (lambda_environment environment1) = Ok (table_name environment1)
  /\ (lambda_init (lambda_environment environment1)
      = lambda_init (lambda_environment environment2) ->
      environment1 = environment2)
  /\ (forall environ, assoc "TABLE_NAME" environ = None ->
                      lambda_init environ = Raise (Exn KeyError "'TABLE_NAME'")).
Proof.
  split; [done|]. split.
  - intros H.
    assert (table_name environment1 = table_name environment2) as Hname
      by exact (f_equal (fun r => match r with Ok n => n | Raise _ => EmptyString end) H).
    unfold table_name in Hname.
    apply append_cancel_l, append_cancel_l in Hname.
    by apply append_cancel_r in Hname.
  - intros environ H. unfold lambda_init. by rewrite H.
Qed.

(** ** The size of the collection *)

(** X22.  A POST answered 201 adds one item to the collection when the
    [id] of its body is new, and leaves the number of items as it was
    when the [id] is already there: an upsert never duplicates. *)
Theorem post_grows_by_at_most_one outage event context (s s1 : store) r :
  handler outage event context s = (Ok r, s1) ->
  statusCode r = 201 ->
  exists k, posted_id event = Some k
            /\ size (items s1)
               = match items s !! k with
                 | Some _ => size (items s)
                 | None => S (size (items s))
                 end.
Proof.
  intros Hrun Hstatus.
  destruct (created_inv _ _ _ _ _ _ Hrun Hstatus)
    as (text & kvs & k & it & _ & _ & Hbody & Hdecode & Hser & Hkey & _ & _ & ->).
  exists k. split; [by apply (posted_id_of _ text kvs it)|]. simpl.
  destruct (items s !! k) as [old|] eqn:Hold.
  - rewrite <- (insert_delete_id (items s) k old Hold) at 2.
    rewrite <- (insert_delete_eq (items s) k it).
    rewrite !map_size_insert_None by apply lookup_delete_eq. done.
  - by apply map_size_insert_None.
Qed.

(** ** Malformed methods and paths *)

(** X23.  The path is inspected with [startswith] only when the method
    is GET.  A request whose method is no GET (a string or not), and
    that is no POST on /items, is answered the 404 of the unmatched
    routes whatever its path is, a string or not; a GET whose path is
    no string is answered 500 with the [AttributeError] of the missing
    [startswith], and the table is not called. *)
Theorem malformed_method_and_path outage event context (s : store) m p :
  http_field event "method" = Ok m ->
  http_field event "path" = Ok p ->
  (py_eq_str m "GET" = false ->
   py_eq_str m "POST" && py_eq_str p "/items" = false ->
   handler outage event context s = (Ok not_found, s))
  /\ (m = PStr "GET" -> (forall text, p <> PStr text) ->
      handler outage event context s
      = (Ok (internal_error
               (Exn AttributeError
                  ("'" +:+ type_name p +:+ "' object has no attribute 'startswith'"))),
         s)).
Proof.
  intros Hm Hp. rewrite (handler_unfold _ _ _ _ _ _ Hm Hp), try_routes.
  unfold routes. split.
  - intros Hget Hpost. by rewrite Hget, Hpost.
  - intros -> Htext. destruct p as [| | | | |text| |]; try done.
    by destruct (Htext text).
Qed.

Lemma well_keyed_empty (s : store) : items s = ∅ -> well_keyed s.
Proof. intros H k it. by rewrite H, lookup_empty. Qed.

End Facts.

(** ** The handler run on the examples of the spec *)

Import Sample.

(** POST /items with [{"id":"42","name":"widget"}] is answered 201,
    [{"message": "Item created"}]. *)
Example post_widget :
  fst (invoke None (request "POST" "/items" (PStr widget_text)) empty_store)
  = Ok created.
Proof. vm_compute. reflexivity. Qed.

(** Then GET /items/42 is answered 200 with the item. *)
Example get_widget :
  fst (invoke None (request "GET" "/items/42" PNone)
         (after None (request "POST" "/items" (PStr widget_text)) empty_store))
  = Ok (ok (JObj [("id", JStr "42"); ("name", JStr "widget")])).
Proof. vm_compute. reflexivity. Qed.

(** DELETE /items is answered 404, [{"error": "Not found"}]. *)
Example delete_items :
  fst (invoke None (request "DELETE" "/items" PNone) empty_store) = Ok not_found.
Proof. vm_compute. reflexivity. Qed.

(** GET /items/{id} for an id never written. *)
Example get_missing :
  fst (invoke None (request "GET" "/items/42" PNone) empty_store)
  = Ok item_not_found.
Proof. vm_compute. reflexivity. Qed.

(** POST with a body that is not JSON is answered 500 with an [error]
    key. *)
Example post_unparsable :
  fst (invoke None (request "POST" "/items" (PStr "{")) empty_store)
  = Ok (internal_error
          (Exn JSONDecodeError
             "Expecting property name enclosed in double quotes: line 1 column 2 (char 1)")).
Proof. vm_compute. reflexivity. Qed.

(** A number comes back as a float: the 7 of the gadget is read as 7.0. *)
Example get_gadget :
  fst (invoke None (request "GET" "/items/42" PNone)
         (after None (request "POST" "/items" (PStr gadget_text)) empty_store))
  = Ok (ok (JObj [("id", JStr "42"); ("name", JStr "gadget");
                  ("price", JFloat (float_of_Decimal (Decimal_of_int 7)))])).
Proof. vm_compute. reflexivity. Qed.

(** GET /items/ looks up the empty key, which the store refuses. *)
Example get_empty_id :
  invoke None (request "GET" "/items/" PNone) empty_store
  = (Ok (internal_error (validation_error "GetItem" empty_key_message)),
     mkStore ∅ [CGetItem (PDict [("id", PStr "")])]).
Proof. vm_compute. reflexivity. Qed.

(** A store in outage turns a listing into a 500. *)
Example list_in_outage :
  fst (invoke (Some (Exn ClientError "Service Unavailable"))
         (request "GET" "/items" PNone) empty_store)
  = Ok (internal_error (Exn ClientError "Service Unavailable")).
Proof. vm_compute. reflexivity. Qed.

(** A body holding a float is refused by the store client: 500. *)
Example post_float :
  fst (invoke None (request "POST" "/items" (PStr priced_text)) empty_store)
  = Ok (internal_error
          (Exn TypeError "Float types are not supported. Use Decimal types instead.")).
Proof. vm_compute. reflexivity. Qed.

(** A body that is JSON and no object is refused by the store client
    before any request is made: 500. *)
Example post_number :
  invoke None (request "POST" "/items" (PStr "7")) empty_store
  = (Ok (internal_error
           (Exn ParamValidationError
              ("Parameter validation failed:"
                 +:+ String "010"%char
                       "Invalid type for parameter Item, value: 7, type: <class 'int'>, valid types: <class 'dict'>"))),
     mkStore ∅ [CPutItem (PInt 7)]).
Proof. vm_compute. reflexivity. Qed.

(** The id ["a/b"] is not reached through its percent-encoding
    either: the handler does not decode the path. *)
Example get_encoded_slash :
  fst (invoke None (request "GET" "/items/a%2Fb" PNone) slashed_store)
  = Ok item_not_found.
Proof. vm_compute. reflexivity. Qed.

(** ** Witnesses and counterexamples *)

(** C1 at a request of the declared API: GET /items on the stage
    [dev], as the REST API hands it to the function, makes the handler
    raise [KeyError: 'http']. *)
Lemma handler_raises_without_http_witness :
  handler None (rest_request "dev" "GET" "/items" PNone) no_context empty_store
  = (Raise (Exn KeyError "'http'"), empty_store).
Proof.
  apply (handler_raises_without_http None
           (rest_request "dev" "GET" "/items" PNone) no_context empty_store
           [("resourcePath", PStr "/items");
            ("httpMethod", PStr "GET");
            ("path", PStr "/dev/items");
            ("stage", PStr "dev")]);
    reflexivity.
Defined.

(** The same on an event without [requestContext]. *)
Example handler_raises_on_bare_event :
  fst (handler None (PDict []) no_context empty_store)
  = Raise (Exn KeyError "'requestContext'").
Proof. vm_compute. reflexivity. Qed.

Lemma handler_answers_witness :
  exists r,
    fst (handler None
           (request "POST" "/items" (PStr "{")) no_context empty_store) = Ok r
    /\ match fst (routes None
                    (request "POST" "/items" (PStr "{"))
                    (PStr "POST") (PStr "/items") empty_store) with
       | Ok r' => r = r'
       | Raise e => r = internal_error e
       end.
Proof.
  apply (handler_answers None
           (request "POST" "/items" (PStr "{")) no_context empty_store
           (PStr "POST") (PStr "/items")); reflexivity.
Defined.

(** C2 as stated fails: the item with id ["a/b"] is written (201), and
    the GET on /items/a/b does not return it: the handler looks up
    ["b"] and answers 404. *)
Lemma slashed_id_not_read_back :
  json_decode slashed_text = Ok (PDict slashed)
  /\ fst (invoke None (request "POST" "/items" (PStr slashed_text)) empty_store)
     = Ok created
  /\ fst (invoke None (request "GET" "/items/a/b" PNone)
            (after None (request "POST" "/items" (PStr slashed_text)) empty_store))
     = Ok item_not_found.
Proof. repeat split; vm_compute; reflexivity. Qed.

Lemma get_returns_posted_witness :
  fst (handler None
         (request "GET" "/items/42" PNone) no_context
         (after None (request "POST" "/items" (PStr gadget_text)) empty_store))
  = Ok (ok (round_trip (PDict gadget))).
Proof.
  apply (get_returns_posted None
           (request "POST" "/items" (PStr gadget_text)) no_context empty_store
           (after None (request "POST" "/items" (PStr gadget_text)) empty_store)
           created gadget_text gadget "42");
    vm_compute; reflexivity.
Defined.

Lemma unmatched_route_witness :
  handler None
    (request "DELETE" "/items" PNone) no_context empty_store
  = (Ok not_found, empty_store).
Proof.
  apply (unmatched_route None
           (request "DELETE" "/items" PNone) no_context empty_store
           "DELETE" "/items");
    [reflexivity | reflexivity | intros [H _]; discriminate H
    | intros [H _]; discriminate H | intros [H _]; discriminate H].
Defined.

(** C4 as stated fails: GET /items/ and GET /items/42/ are GETs under
    /items/ whose trailing segment is the empty string, a key no item
    of the collection has; they are answered 500, the store refusing
    the empty key, and not 404 with [{"error": "Item not found"}]. *)
Lemma empty_id_is_500 :
  index_last (split slash "/items/") = Ok ""
  /\ index_last (split slash "/items/42/") = Ok ""
  /\ items widget_store !! "" = None
  /\ fst (invoke None (request "GET" "/items/" PNone) widget_store)
     = Ok (internal_error (validation_error "GetItem" empty_key_message))
  /\ fst (invoke None (request "GET" "/items/42/" PNone) widget_store)
     = Ok (internal_error (validation_error "GetItem" empty_key_message))
  /\ internal_error (validation_error "GetItem" empty_key_message)
     <> (item_not_found : response Q).
Proof. repeat split; try discriminate; vm_compute; reflexivity. Qed.

Lemma get_by_id_witness :
  fst (handler None
         (request "GET" "/items/b" PNone) no_context slashed_store)
  = Ok (match items slashed_store !! "b" with
        | Some it => ok (json_of_item it)
        | None => item_not_found
        end).
Proof.
  apply (get_by_id
           (request "GET" "/items/b" PNone) no_context slashed_store "/items/b" "b");
    [reflexivity | reflexivity | reflexivity | reflexivity | discriminate].
Defined.

(** C5 as stated fails: the body [{"name":"widget"}] parses as JSON, and
    the POST is answered 500, the table refusing an item without its
    key [id]. *)
Lemma post_without_id_is_500 :
  json_decode nameless_text = Ok (PDict nameless)
  /\ invoke None (request "POST" "/items" (PStr nameless_text)) empty_store
     = (Ok (internal_error
              (validation_error "PutItem"
                 "One or more parameter values were invalid: Missing the key id in the item")),
        mkStore ∅ [CPutItem (PDict nameless)]).
Proof. split; vm_compute; reflexivity. Qed.

Lemma post_creates_item_witness :
  exists it,
    serialize_map gadget = Ok it
    /\ json_of_item it = round_trip (PDict gadget)
    /\ handler None
         (request "POST" "/items" (PStr gadget_text)) no_context empty_store
       = (Ok created, put_done empty_store gadget "42" it).
Proof.
  apply (post_creates_item
           (request "POST" "/items" (PStr gadget_text)) no_context empty_store
           gadget_text gadget "42");
    [reflexivity | reflexivity | reflexivity | reflexivity | reflexivity
    | reflexivity | discriminate].
Defined.

(** C6 as stated fails: the id ["a/b"] is in the collection, a POST
    re-using it is answered 201, and the GET on /items/a/b returns the
    item stored under ["b"], not the newly written one. *)
Lemma slashed_id_overwrite_not_read :
  is_Some (items slashed_store !! "a/b")
  /\ json_decode reslashed_text = Ok (PDict reslashed)
  /\ fst (invoke None (request "POST" "/items" (PStr reslashed_text)) slashed_store)
     = Ok created
  /\ fst (invoke None (request "GET" "/items/a/b" PNone)
            (after None (request "POST" "/items" (PStr reslashed_text)) slashed_store))
     = Ok (ok (JObj [("id", JStr "b"); ("name", JStr "bolt")])).
Proof. repeat split; try (by eexists); vm_compute; reflexivity. Qed.

Lemma post_overwrites_witness :
  fst (handler None (request "GET" "/items/42" PNone) no_context widget_store)
  = Ok (ok (json_of_item [("id", AS "42"); ("name", AS "widget")]))
  /\ fst (handler None (request "GET" "/items/42" PNone) no_context gadget_store)
     = Ok (ok (round_trip (PDict gadget)))
  /\ exists it, items gadget_store !! "42" = Some it
                /\ json_of_item it = round_trip (PDict gadget).
Proof.
  apply (post_overwrites None
           (request "POST" "/items" (PStr gadget_text)) no_context
           widget_store gadget_store
           created gadget_text gadget "42"
           [("id", AS "42"); ("name", AS "widget")]
           (request "GET" "/items/42" PNone) no_context);
    vm_compute; reflexivity.
Defined.

Lemma list_items_witness :
  exists l,
    fst (handler None (request "GET" "/items" PNone) no_context two_items_store)
    = Ok (ok (JArr l))
    /\ length l = size (items two_items_store)
    /\ (forall j, j ∈ l <-> exists k it, items two_items_store !! k = Some it
                                        /\ j = json_of_item it)
    /\ (forall k v, (k, v) ∈ [("42", PDict widget); ("7", PDict bolt)] ->
                    round_trip v ∈ l).
Proof.
  apply (list_items empty_store
           [("42", PDict widget); ("7", PDict bolt)] two_items_store
           (request "GET" "/items" PNone) no_context).
  - apply (written_cons empty_store widget_store two_items_store None
             (request "POST" "/items" (PStr widget_text)) no_context
             widget_text "42" widget created);
      [reflexivity | reflexivity | reflexivity | reflexivity | reflexivity
      | vm_compute; reflexivity | reflexivity |].
    apply (written_cons widget_store two_items_store two_items_store None
             (request "POST" "/items" (PStr bolt_text)) no_context
             bolt_text "7" bolt created);
      [reflexivity | reflexivity | reflexivity | reflexivity | reflexivity
      | vm_compute; reflexivity | reflexivity |].
    apply written_nil.
  - apply NoDup_cons. split.
    + apply not_elem_of_cons. split; [discriminate | apply not_elem_of_nil].
    + apply NoDup_cons. split; [apply not_elem_of_nil | apply NoDup_nil_2].
  - vm_compute. lia.
  - reflexivity.
  - reflexivity.
Defined.

(** The size of a text of [n] characters, and of an item carrying it. *)
Lemma size_times (c : ascii) (n : N) :
  Z.of_nat (String.length (times c n)) = Z.of_N n.
Proof.
  unfold times. induction n as [|n IH] using N.peano_ind; [reflexivity|].
  rewrite N.iter_succ. change (String.length (String c ?s)) with (S (String.length s)).
  rewrite Nat2Z.inj_succ, IH. lia.
Qed.

Lemma item_size_bulky (k blob : string) :
  item_size (bulky_item k blob)
  = (Z.of_nat (String.length k) + Z.of_nat (String.length blob) + 6)%Z.
Proof.
  unfold item_size, bulky_item, fold_right, attr_size, fst, snd.
  change (Z.of_nat (String.length "id")) with 2%Z.
  change (Z.of_nat (String.length "blob")) with 4%Z. lia.
Qed.

(** Four items of 380,000 bytes of text each: two fit in the page of
    1 MB and the third does not. *)
Lemma bulky_page (blob : string) :
  Z.of_nat (String.length blob) = 380000%Z ->
  scan_page (map snd (map_to_list (items (bulky_store blob)))) = 2%nat
  /\ size (items (bulky_store blob)) = 4%nat.
Proof.
  intros Hblob. split; [|reflexivity].
  change (map snd (map_to_list (items (bulky_store blob))))
    with [bulky_item "3" blob; bulky_item "1" blob;
          bulky_item "2" blob; bulky_item "4" blob].
  unfold scan_page, runtime, page_limit, page_by_size.
  rewrite !item_size_bulky, Hblob.
  reflexivity.
Qed.



Lemma handler_frame_witness :
  items (snd (handler None (request "GET" "/items/b" PNone) no_context slashed_store))
  = items slashed_store
  /\ items (snd (handler None (request "POST" "/items" (PStr bolt_text))
                   no_context slashed_store)) !! "b"
     = items slashed_store !! "b".
Proof.
  split.
  - apply (proj1 (handler_frame None (request "GET" "/items/b" PNone) no_context slashed_store)).
    reflexivity.
  - apply (proj2 (handler_frame None (request "POST" "/items" (PStr bolt_text))
                    no_context slashed_store)).
    vm_compute. discriminate.
Defined.

Lemma by_id_lookup_witness :
  exists pre k,
    "/items/a/b" = pre +:+ String slash k
    /\ occurs slash k = false
    /\ index_last (split slash "/items/a/b") = Ok k
    /\ calls (snd (handler None
                     (request "GET" "/items/a/b" PNone) no_context slashed_store))
       = (calls slashed_store ++ [CGetItem (PDict [("id", PStr k)])])%list
    /\ exists r, fst (handler None
                        (request "GET" "/items/a/b" PNone) no_context slashed_store)
                 = Ok r
                 /\ r <> not_found.
Proof.
  apply (by_id_lookup None
           (request "GET" "/items/a/b" PNone) no_context slashed_store "/items/a/b");
    reflexivity.
Defined.

(** The two paths named by C10: the key looked up for /items/a/b is
    ["b"], and for /items/ it is the empty string. *)
Example last_segment_nested : index_last (split slash "/items/a/b") = Ok "b".
Proof. reflexivity. Qed.

Example last_segment_empty : index_last (split slash "/items/") = Ok "".
Proof. reflexivity. Qed.

Example get_nested_calls :
  calls (after None (request "GET" "/items/a/b" PNone) slashed_store)
  = [CGetItem (PDict [("id", PStr "b")])].
Proof. vm_compute. reflexivity. Qed.

(** ** Witnesses of the further properties *)

Lemma widget_store_well_keyed : well_keyed widget_store.
Proof. apply handler_well_keyed, well_keyed_empty. reflexivity. Qed.

Lemma two_items_store_well_keyed : well_keyed two_items_store.
Proof. apply handler_well_keyed, widget_store_well_keyed. Qed.

Lemma slashed_store_well_keyed : well_keyed slashed_store.
Proof.
  intros k it H. unfold slashed_store in H. simpl in H.
  apply lookup_insert_Some in H as [[<- <-]|[_ H]]; [by split|].
  apply lookup_insert_Some in H as [[<- <-]|[_ H]]; [by split|].
  by rewrite lookup_empty in H.
Qed.

Lemma two_items_written :
  written empty_store [("42", PDict widget); ("7", PDict bolt)] two_items_store.
Proof.
  apply (written_cons empty_store widget_store two_items_store None
           (request "POST" "/items" (PStr widget_text)) no_context
           widget_text "42" widget created);
    [reflexivity | reflexivity | reflexivity | reflexivity | reflexivity
    | vm_compute; reflexivity | reflexivity |].
  apply (written_cons widget_store two_items_store two_items_store None
           (request "POST" "/items" (PStr bolt_text)) no_context
           bolt_text "7" bolt created);
    [reflexivity | reflexivity | reflexivity | reflexivity | reflexivity
    | vm_compute; reflexivity | reflexivity |].
  apply written_nil.
Qed.

Lemma response_shape_witness :
  ((statusCode (@created Q) = 200 \/ statusCode (@created Q) = 201)
   /\ headers (@created Q) = json_headers)
  \/ ((statusCode (@created Q) = 404 \/ statusCode (@created Q) = 500)
      /\ headers (@created Q) = None
      /\ exists message, body (@created Q) = error_body message).
Proof.
  apply (response_shape None (request "POST" "/items" (PStr widget_text))
           no_context empty_store created widget_store).
  vm_compute. reflexivity.
Defined.

Lemma bad_body_skips_store_witness :
  handler None (request "POST" "/items" (PStr "{")) no_context widget_store
  = (Ok (internal_error
           (Exn JSONDecodeError
              "Expecting property name enclosed in double quotes: line 1 column 2 (char 1)")),
     widget_store).
Proof.
  apply (bad_body_skips_store None (request "POST" "/items" (PStr "{"))
           no_context widget_store); reflexivity.
Defined.

Lemma run_well_keyed_witness : well_keyed (snd (run bolt_then_list widget_store)).
Proof. apply (run_well_keyed bolt_then_list widget_store), widget_store_well_keyed. Defined.

Lemma written_item_persists_witness :
  fst (handler None (request "GET" "/items/42" PNone) no_context
         (snd (run bolt_then_list gadget_store)))
  = Ok (ok (round_trip (PDict gadget))).
Proof.
  apply (written_item_persists None (request "POST" "/items" (PStr gadget_text))
           no_context widget_store gadget_store created gadget_text gadget "42"
           bolt_then_list (request "GET" "/items/42" PNone) no_context);
    try (vm_compute; reflexivity).
  repeat constructor; vm_compute; discriminate.
Defined.

Lemma get_by_id_carries_id_witness :
  exists k, index_last (split slash "/items/42") = Ok k
            /\ json_id (body (@ok Q (JObj [("id", JStr "42"); ("name", JStr "widget")])))
               = Some k.
Proof.
  apply (get_by_id_carries_id None (request "GET" "/items/42" PNone) no_context
           widget_store "/items/42"
           (ok (JObj [("id", JStr "42"); ("name", JStr "widget")]))
           (after None (request "GET" "/items/42" PNone) widget_store));
    [apply widget_store_well_keyed | reflexivity | reflexivity | reflexivity
    | vm_compute; reflexivity | reflexivity].
Defined.

Lemma listing_ids_distinct_witness :
  exists l, fst (handler None (request "GET" "/items" PNone) no_context two_items_store)
            = Ok (ok (JArr l))
            /\ Forall (fun j => is_Some (json_id j)) l
            /\ NoDup (map json_id l).
Proof.
  apply (listing_ids_distinct (request "GET" "/items" PNone) no_context two_items_store);
    [apply two_items_store_well_keyed | reflexivity | reflexivity].
Defined.

Lemma slashed_id_unreachable_witness :
  fst (handler None (request "GET" "/items/a/b" PNone) no_context slashed_store)
  <> Ok (ok (json_of_item [("id", AS "a/b"); ("name", AS "widget")])).
Proof.
  apply (slashed_id_unreachable None (request "GET" "/items/a/b" PNone) no_context
           slashed_store "/items/a/b" "a/b");
    [apply slashed_store_well_keyed | reflexivity | reflexivity | reflexivity
    | reflexivity | reflexivity].
Defined.

Lemma reads_do_not_interfere_witness :
  fst (handler None (request "POST" "/items" (PStr bolt_text)) no_context
         (snd (handler None (request "GET" "/items" PNone) no_context widget_store)))
  = fst (handler None (request "POST" "/items" (PStr bolt_text)) no_context widget_store).
Proof.
  apply (reads_do_not_interfere None (request "GET" "/items" PNone) no_context None
           (request "POST" "/items" (PStr bolt_text)) no_context widget_store).
  reflexivity.
Defined.

Lemma post_twice_witness :
  fst (handler None (request "POST" "/items" (PStr widget_text)) no_context widget_store)
  = Ok created
  /\ items (snd (handler None (request "POST" "/items" (PStr widget_text))
                   no_context widget_store))
     = items widget_store.
Proof.
  apply (post_twice None (request "POST" "/items" (PStr widget_text))
           no_context no_context empty_store widget_store created);
    vm_compute; reflexivity.
Defined.

Lemma posts_commute_witness :
  exists s1' s2',
    handler None (request "POST" "/items" (PStr bolt_text)) no_context empty_store
    = (Ok created, s1')
    /\ handler None (request "POST" "/items" (PStr widget_text)) no_context s1'
       = (Ok created, s2')
    /\ items s2' = items two_items_store.
Proof.
  apply (posts_commute (request "POST" "/items" (PStr widget_text)) no_context
           (request "POST" "/items" (PStr bolt_text)) no_context
           empty_store widget_store two_items_store created created);
    try (vm_compute; reflexivity).
  vm_compute. discriminate.
Defined.

Lemma written_keys_witness :
  dom (items two_items_store)
  = list_to_set (map fst [("42", PDict widget); ("7", PDict bolt)]).
Proof.
  apply (written_keys empty_store two_items_store
           [("42", PDict widget); ("7", PDict bolt)]);
    [reflexivity | apply two_items_written].
Defined.

Lemma malformed_method_and_path_witness :
  handler None (PDict [("requestContext",
                        PDict [("http", PDict [("method", PStr "GET");
                                               ("path", PInt 7)])])])
    no_context widget_store
  = (Ok (internal_error
           (Exn AttributeError "'int' object has no attribute 'startswith'")),
     widget_store).
Proof.
  apply (proj2 (malformed_method_and_path None
                  (PDict [("requestContext",
                           PDict [("http", PDict [("method", PStr "GET");
                                                  ("path", PInt 7)])])])
                  no_context widget_store (PStr "GET") (PInt 7) eq_refl eq_refl));
    [reflexivity | discriminate].
Defined.

Lemma post_grows_by_at_most_one_witness :
  exists k, posted_id (request "POST" "/items" (PStr gadget_text)) = Some k
            /\ size (items gadget_store)
               = match items widget_store !! k with
                 | Some _ => size (items widget_store)
                 | None => S (size (items widget_store))
                 end.
Proof.
  apply (post_grows_by_at_most_one None (request "POST" "/items" (PStr gadget_text))
           no_context widget_store gadget_store created);
    vm_compute; reflexivity.
Defined.
